(** * Furniture API: the request handlers of [main.py]

    The four handlers of the furniture resource ([create_furniture],
    [list_furniture], [update_furniture], [delete_furniture]) and the request
    models [FurnitureCreate] and [FurnitureUpdate], embedded as Rocq
    functions.

    A handler is a small program that can return, raise, or call the document
    store and continue with the store's answer.  The store client
    ([database.py], pymongo) is not part of [main.py]: its calls are the nodes
    of the program, and every statement below quantifies over what the store
    answers.  The library functions the handlers use ([str.lower],
    [bson.ObjectId], [str] of an exception, pydantic's field validators) are
    the fields of the records [PyLib] and [Pydantic].

    The handler definitions are the [try] blocks, with what the import
    statement binds as an argument; the [_request] definitions put the
    import statement, which the [try] block does not cover, in front. *)

From Stdlib Require Import ZArith QArith String Ascii List.
From stdpp Require Import base option list strings pretty gmap fin_maps.

Open Scope Z_scope.
Open Scope string_scope.

(** ** Values and documents *)

(** A [bson.ObjectId] is twelve bytes, kept as the number they spell. *)
Definition ObjectId : Type := N.

(** A [datetime] in UTC, as microseconds since the epoch. *)
Definition datetime : Type := Z.

(** The Python values a furniture document holds. *)
Inductive value : Type :=
| VNone
| VBool (b : bool)
| VInt (n : Z)
| VFloat (x : Q)
| VStr (s : string)
| VObjectId (o : ObjectId)
| VDatetime (t : datetime).

(** A document, a filter and a change-set are Python dicts with string keys. *)
Abbreviation document := (gmap string value).

(** [v is not None] *)
Definition is_not_None (v : value) : bool :=
  match v with VNone => false | _ => true end.

(** Python truthiness, as [or] tests it. *)
Definition truthy (v : value) : bool :=
  match v with
  | VNone => false
  | VBool b => b
  | VInt n => negb (Z.eqb n 0)
  | VFloat x => negb (Qeq_bool x 0)
  | VStr s => negb (String.eqb s EmptyString)
  | VObjectId _ => true
  | VDatetime _ => true
  end.

(** [a or b] *)
Definition py_or (a b : value) : value := if truthy a then a else b.

(** [d.get(k, dflt)] *)
Definition dict_get (d : document) (k : string) (dflt : value) : value :=
  default dflt (d !! k).

(** [dict(items)]: later items overwrite earlier ones. *)
Definition dict_of_items (items : list (string * value)) : document :=
  fold_left (fun d kv => <[kv.1 := kv.2]> d) items ∅.

(** [sub in s] on strings: [sub] occurs in [s] as a contiguous substring. *)
Fixpoint str_in (sub s : string) : bool :=
  String.prefix sub s ||
  match s with
  | EmptyString => false
  | String _ s' => str_in sub s'
  end.

(** ** Exceptions *)

Inductive exn : Type :=
| HTTPException (status_code : Z) (detail : string)
| AttributeError (v : value)      (* [v.lower()] on a value that is no str *)
| TypeError                        (* [None["furniture"]] *)
| InvalidId (oid : string)        (* [ObjectId(oid)] on a malformed string *)
| StoreError (msg : string).      (* anything the store client raises *)

(** ** Library functions *)

Record PyLib : Type := {
  (** [s.lower()] *)
  lower : string -> string;
  (** [ObjectId(s)]; [None] when bson raises [InvalidId] *)
  ObjectId_new : string -> option ObjectId;
  (** [str(oid)] *)
  ObjectId_str : ObjectId -> string;
  (** [str(e)] *)
  exn_str : exn -> string
}.

(** ** Request models *)

Record FurnitureCreate : Type := {
  c_name : string;
  c_description : option string;
  c_category : string;
  c_material : option string;
  c_dimensions : option string;
  c_price : Q;
  c_stock : Z;
  c_image_url : option string;
  c_is_featured : bool
}.

Record FurnitureUpdate : Type := {
  name : option string;
  description : option string;
  category : option string;
  material : option string;
  dimensions : option string;
  price : option Q;
  stock : option Z;
  image_url : option string;
  is_featured : option bool
}.

(** An optional field as a Python value: [None] when it is not set. *)
Definition opt_value {A : Type} (inj : A -> value) (o : option A) : value :=
  match o with Some a => inj a | None => VNone end.

(** [payload.model_dump().items()], in the order the fields are declared. *)
Definition model_dump (payload : FurnitureUpdate) : list (string * value) :=
  [ ("name", opt_value VStr (name payload));
    ("description", opt_value VStr (description payload));
    ("category", opt_value VStr (category payload));
    ("material", opt_value VStr (material payload));
    ("dimensions", opt_value VStr (dimensions payload));
    ("price", opt_value VFloat (price payload));
    ("stock", opt_value VInt (stock payload));
    ("image_url", opt_value VStr (image_url payload));
    ("is_featured", opt_value VBool (is_featured payload)) ].

(** ** Request bodies and validation *)

(** A JSON value of a request body. *)
#[warnings="-register-all"]
Inductive json : Type :=
| JNull
| JBool (b : bool)
| JNumber (x : Q)
| JString (s : string)
| JArray (l : list json)
| JObject (l : list (string * json)).

(** pydantic's validators for the annotated types: [None] when the value is
    rejected for that type. *)
Record Pydantic : Type := {
  validate_str : json -> option string;
  validate_float : json -> option Q;
  validate_int : json -> option Z;
  validate_bool : json -> option bool
}.

(** A field declared without a default ([name: str]). *)
Definition required {A : Type} (validate : json -> option A)
    (body : gmap string json) (k : string) : option A :=
  match body !! k with
  | None => None
  | Some j => validate j
  end.

(** A field declared with a default ([stock: int = 0]). *)
Definition with_default {A : Type} (validate : json -> option A) (dflt : A)
    (body : gmap string json) (k : string) : option A :=
  match body !! k with
  | None => Some dflt
  | Some j => validate j
  end.

(** [Optional[T]]: [null] is accepted as [None]. *)
Definition validate_optional {A : Type} (validate : json -> option A)
    (j : json) : option (option A) :=
  match j with
  | JNull => Some None
  | _ => Some <$> validate j
  end.

(** [FurnitureCreate.model_validate(body)]: [None] when validation fails. *)
Definition FurnitureCreate_validate (pd : Pydantic) (body : gmap string json)
    : option FurnitureCreate :=
  n ← required (validate_str pd) body "name";
  d ← with_default (validate_optional (validate_str pd)) None body "description";
  c ← required (validate_str pd) body "category";
  m ← with_default (validate_optional (validate_str pd)) None body "material";
  dm ← with_default (validate_optional (validate_str pd)) None body "dimensions";
  p ← required (validate_float pd) body "price";
  s ← with_default (validate_int pd) 0 body "stock";
  i ← with_default (validate_optional (validate_str pd)) None body "image_url";
  f ← with_default (validate_bool pd) false body "is_featured";
  Some {| c_name := n; c_description := d; c_category := c; c_material := m;
          c_dimensions := dm; c_price := p; c_stock := s; c_image_url := i;
          c_is_featured := f |}.

(** ** Handler programs *)

(** [{"$set": fields}], the only update operator the handlers send. *)
Inductive update_spec : Type :=
| UpdateSet (fields : document).

Record UpdateResult : Type := { matched_count : Z; modified_count : Z }.

Record DeleteResult : Type := { deleted_count : Z }.

(** The calls a handler makes to the document store, indexed by the type of
    the answer: the two helpers of [database.py] and the two methods of a
    pymongo collection. *)
Inductive store_call : Type -> Type :=
| create_document (collection_name : string) (data : FurnitureCreate)
    : store_call string
| get_documents (collection_name : string) (filter_dict : document) (limit : Z)
    : store_call (list document)
| update_one (collection : string) (filter : document) (update : update_spec)
    : store_call UpdateResult
| delete_one (collection : string) (filter : document)
    : store_call DeleteResult.

(** A handler returns, raises, or calls the store and goes on with what the
    store answers: an exception or a result. *)
Inductive handler (A : Type) : Type :=
| Return (a : A)
| Raise (e : exn)
| Call {X : Type} (c : store_call X) (k : exn + X -> handler A).

Arguments Return {A} a.
Arguments Raise {A} e.
Arguments Call {A X} c k.

Fixpoint bind {A B : Type} (m : handler A) (f : A -> handler B) : handler B :=
  match m with
  | Return a => f a
  | Raise e => Raise e
  | Call c k => Call c (fun r => bind (k r) f)
  end.

#[global] Instance handler_ret : MRet handler := fun A a => Return a.
#[global] Instance handler_bind : MBind handler := fun A B f m => bind m f.

(** [try: body  except Exception as e: h e] *)
Fixpoint try_except {A : Type} (body : handler A) (h : exn -> handler A)
    : handler A :=
  match body with
  | Return a => Return a
  | Raise e => h e
  | Call c k => Call c (fun r => try_except (k r) h)
  end.

(** A store call whose exception, if any, propagates. *)
Definition call {X : Type} (c : store_call X) : handler X :=
  Call c (fun r => match r with inl e => Raise e | inr x => Return x end).

(** The handler makes no store call at all. *)
Definition no_store_call {A : Type} (m : handler A) : Prop :=
  match m with Call _ _ => False | _ => True end.

(** Running a handler against a store: [exec] answers each call from the
    store's state. *)
Fixpoint run {S A : Type}
    (exec : forall X, store_call X -> S -> (exn + X) * S)
    (m : handler A) (s : S) : (exn + A) * S :=
  match m with
  | Return a => (inr a, s)
  | Raise e => (inl e, s)
  | Call c k => let '(r, s') := exec _ c s in run exec (k r) s'
  end.

(** The module-level [db] of [database.py]; [None] when no database is
    configured. *)
Inductive Database : Type :=
| Db (db_name : string).

(** [db[coll]] *)
Definition db_getitem (db : option Database) (coll : string) : handler string :=
  match db with
  | None => Raise TypeError
  | Some _ => Return coll
  end.

(** [ObjectId(s)] *)
Definition new_ObjectId (py : PyLib) (s : string) : handler ObjectId :=
  match ObjectId_new py s with
  | Some o => Return o
  | None => Raise (InvalidId s)
  end.

(** [v.lower()]: only a str has the method. *)
Definition value_lower (py : PyLib) (v : value) : handler string :=
  match v with
  | VStr s => Return (lower py s)
  | _ => Raise (AttributeError v)
  end.

(** The handlers' [except Exception as e] clause. *)
Definition to_500 {A : Type} (py : PyLib) (e : exn) : handler A :=
  Raise (HTTPException 500 (exn_str py e)).

(** ** The handlers *)

Definition create_furniture (py : PyLib) (item : FurnitureCreate)
    : handler document :=
  try_except
    (inserted_id ← call (create_document "furniture" item);
     Return {[ "id" := VStr inserted_id ]})
    (to_500 py).

(** The condition of the comprehension of [list_furniture]:
    [q_lower in (name.lower() + " " + description.lower())], where [name]
    is [d.get("name", empty)] and [description] is
    [d.get("description", empty) or empty], [empty] the empty string *)
Definition q_in_doc (py : PyLib) (q_lower : string) (d : document)
    : handler bool :=
  n ← value_lower py (dict_get d "name" (VStr EmptyString));
  ds ← value_lower py (py_or (dict_get d "description" (VStr EmptyString)) (VStr EmptyString));
  Return (str_in q_lower (n ++ " " ++ ds)).

(** [[d for d in docs if q_in_doc q_lower d]] *)
Fixpoint docs_with_q (py : PyLib) (q_lower : string) (docs : list document)
    : handler (list document) :=
  match docs with
  | [] => Return []
  | d :: docs' =>
      keep ← q_in_doc py q_lower d;
      rest ← docs_with_q py q_lower docs';
      Return (if keep : bool then d :: rest else rest)
  end.

(** The body of the loop that converts the identifier:
    [if isinstance(d.get("_id"), ObjectId): d["id"] = str(d.pop("_id"))] *)
Definition convert_id (py : PyLib) (d : document) : document :=
  match d !! "_id" with
  | Some (VObjectId o) => <["id" := VStr (ObjectId_str py o)]> (delete "_id" d)
  | _ => d
  end.

Definition list_furniture (py : PyLib) (q category : option string)
    (featured : option bool) (limit : Z) : handler (list document) :=
  try_except
    (let filter_dict : document := ∅ in
     let filter_dict :=
       match category with
       | Some c => if String.eqb c EmptyString then filter_dict
                   else <["category" := VStr c]> filter_dict
       | None => filter_dict
       end in
     let filter_dict :=
       match featured with
       | Some f => <["is_featured" := VBool f]> filter_dict
       | None => filter_dict
       end in
     docs ← call (get_documents "furniture" filter_dict limit);
     docs ← match q with
            | Some q => if String.eqb q EmptyString then Return docs
                        else let q_lower := lower py q in
                             docs_with_q py q_lower docs
            | None => Return docs
            end;
     Return (map (convert_id py) docs))
    (to_500 py).

(** What [list_furniture] does once [get_documents] has answered [docs]:
    the rest of its [try] block. *)
Definition list_after_call (py : PyLib) (q : option string)
    (docs : list document) : handler (list document) :=
  try_except
    (docs' ← match q with
             | Some q => if String.eqb q EmptyString then Return docs
                         else docs_with_q py (lower py q) docs
             | None => Return docs
             end;
     Return (map (convert_id py) docs'))
    (to_500 py).

(** The change-set of an update before it is stamped:
    [{k: v for k, v in payload.model_dump().items() if v is not None}] *)
Definition non_null_fields (payload : FurnitureUpdate) : document :=
  dict_of_items (filter (fun kv => is_not_None kv.2) (model_dump payload)).

Definition update_furniture (py : PyLib) (db : option Database) (now : datetime)
    (item_id : string) (payload : FurnitureUpdate) : handler document :=
  try_except
    (let update_doc := non_null_fields payload in
     if decide (update_doc = ∅) then Return {[ "updated" := VBool false ]}
     else
       let update_doc := <["updated_at" := VDatetime now]> update_doc in
       coll ← db_getitem db "furniture";
       oid ← new_ObjectId py item_id;
       result ← call (update_one coll {[ "_id" := VObjectId oid ]}
                                 (UpdateSet update_doc));
       if Z.eqb (matched_count result) 0
       then Raise (HTTPException 404 "Item not found")
       else Return {[ "updated" := VBool true ]})
    (to_500 py).

Definition delete_furniture (py : PyLib) (db : option Database)
    (item_id : string) : handler document :=
  try_except
    (coll ← db_getitem db "furniture";
     oid ← new_ObjectId py item_id;
     result ← call (delete_one coll {[ "_id" := VObjectId oid ]});
     if Z.eqb (deleted_count result) 0
     then Raise (HTTPException 404 "Item not found")
     else Return {[ "deleted" := VBool true ]})
    (to_500 py).

(** ** A reference instance of the libraries

    An instance of [PyLib] and [Pydantic] to evaluate the handlers on
    concrete requests.  It agrees with the libraries on ASCII text, on
    identifiers written as 24 hexadecimal digits and on the JSON values
    named below; the theorems do not depend on it, they hold for every
    instance. *)

(** [str.lower] on ASCII text.  A letter outside ASCII is left as it is,
    where Python lowers it. *)

Definition ascii_lower (c : ascii) : ascii :=
  let n := N_of_ascii c in
  if ((65 <=? n) && (n <=? 90))%N then ascii_of_N (n + 32) else c.

Fixpoint ascii_str_lower (s : string) : string :=
  match s with
  | EmptyString => EmptyString
  | String c s' => String (ascii_lower c) (ascii_str_lower s')
  end.

Definition hex_digit (c : ascii) : option N :=
  let n := N_of_ascii c in
  if ((48 <=? n) && (n <=? 57))%N then Some (n - 48)%N
  else if ((97 <=? n) && (n <=? 102))%N then Some (n - 87)%N
  else if ((65 <=? n) && (n <=? 70))%N then Some (n - 55)%N
  else None.

Fixpoint hex_value (s : string) (acc : N) : option N :=
  match s with
  | EmptyString => Some acc
  | String c s' =>
      match hex_digit c with
      | Some d => hex_value s' (16 * acc + d)%N
      | None => None
      end
  end.

(** [ObjectId(s)] on a string of 24 hexadecimal digits, and on every string
    that is not 24 characters long (bson rejects those).  bson also takes a
    24-character string in which ASCII whitespace separates pairs of digits,
    for an identifier of fewer than twelve bytes; this instance rejects it. *)
Definition hex_ObjectId (s : string) : option ObjectId :=
  if Nat.eqb (String.length s) 24 then hex_value s 0%N else None.

Definition hex_char (d : N) : ascii :=
  if (d <? 10)%N then ascii_of_N (48 + d) else ascii_of_N (87 + d).

Fixpoint hex_string (digits : nat) (n : N) (acc : string) : string :=
  match digits with
  | O => acc
  | S digits' => hex_string digits' (n / 16)%N (String (hex_char (n mod 16)%N) acc)
  end.

(** [type(v).__name__], as the text of an [AttributeError] shows it. *)
Definition type_name (v : value) : string :=
  match v with
  | VNone => "NoneType"
  | VBool _ => "bool"
  | VInt _ => "int"
  | VFloat _ => "float"
  | VStr _ => "str"
  | VObjectId _ => "ObjectId"
  | VDatetime _ => "datetime.datetime"
  end.

(** [str(e)]: Starlette's text of an [HTTPException], CPython's of the
    [AttributeError] and the [TypeError], bson's of [InvalidId] (for an
    identifier whose [repr] is the identifier between single quotes). *)
Definition example_exn_str (e : exn) : string :=
  match e with
  | HTTPException status_code detail => pretty status_code ++ ": " ++ detail
  | AttributeError v =>
      "'" ++ type_name v ++ "' object has no attribute 'lower'"
  | TypeError => "'NoneType' object is not subscriptable"
  | InvalidId oid =>
      "'" ++ oid ++ "' is not a valid ObjectId, it must be a 12-byte input"
      ++ " or a 24-character hex string"
  | StoreError msg => msg
  end.

Definition example_py : PyLib :=
  {| lower := ascii_str_lower;
     ObjectId_new := hex_ObjectId;
     ObjectId_str := fun o => hex_string 24 o EmptyString;
     exn_str := example_exn_str |}.

(** Decimal numerals, for the strings pydantic's lax mode takes as numbers. *)
Definition digit (c : ascii) : option N :=
  let n := N_of_ascii c in
  if ((48 <=? n) && (n <=? 57))%N then Some (n - 48)%N else None.

Fixpoint digits_value (s : string) (acc : N) : option N :=
  match s with
  | EmptyString => Some acc
  | String c s' =>
      match digit c with
      | Some d => digits_value s' (10 * acc + d)%N
      | None => None
      end
  end.

(** The text before the first ".", and the text after it if there is one. *)
Fixpoint split_dot (s : string) : string * option string :=
  match s with
  | EmptyString => (EmptyString, None)
  | String c s' =>
      if Ascii.eqb c "." then (EmptyString, Some s')
      else let '(a, b) := split_dot s' in (String c a, b)
  end.

(** Digits, with at most one "." among them and at least one digit. *)
Definition unsigned_decimal (s : string) : option Q :=
  match split_dot s with
  | (i, None) =>
      if String.eqb i EmptyString then None
      else n ← digits_value i 0%N; Some (Z.of_N n # 1)
  | (i, Some f) =>
      if String.eqb i EmptyString && String.eqb f EmptyString then None
      else
        n ← digits_value i 0%N;
        m ← digits_value f 0%N;
        let scale := (10 ^ N.of_nat (String.length f))%N in
        Some (Z.of_N (n * scale + m) # N.succ_pos (N.pred scale))
  end.

Definition unsigned_integer (s : string) : option Z :=
  if String.eqb s EmptyString then None
  else n ← digits_value s 0%N; Some (Z.of_N n).

(** An optional sign before an unsigned numeral. *)
Definition signed {A : Type} (neg : A -> A) (parse : string -> option A)
    (s : string) : option A :=
  match s with
  | String c s' =>
      if Ascii.eqb c "-" then neg <$> parse s'
      else if Ascii.eqb c "+" then parse s'
      else parse s
  | EmptyString => None
  end.

(** pydantic's validators in lax mode, which is the mode FastAPI validates a
    body in, on JSON values.  A [str] field takes a string only.  A [float]
    field takes a number, a boolean (as 1.0 or 0.0) and a string that is a
    decimal numeral.  An [int] field takes a number without a fractional
    part, a boolean and a string of digits.  A [bool] field takes a boolean,
    the numbers 0 and 1 and the words pydantic lists.  Numerals with an
    exponent, with surrounding blanks, and the spellings of infinity and NaN,
    which pydantic also takes, are rejected here. *)
Definition example_pydantic : Pydantic :=
  {| validate_str := fun j => match j with JString s => Some s | _ => None end;
     validate_float := fun j =>
       match j with
       | JNumber x => Some x
       | JBool b => Some (if b then 1%Q else 0%Q)
       | JString s => signed Qopp unsigned_decimal s
       | _ => None
       end;
     validate_int := fun j =>
       match j with
       | JNumber x =>
           let r := Qred x in
           if Pos.eqb (Qden r) 1 then Some (Qnum r) else None
       | JBool b => Some (if b then 1 else 0)
       | JString s => signed Z.opp unsigned_integer s
       | _ => None
       end;
     validate_bool := fun j =>
       match j with
       | JBool b => Some b
       | JNumber x =>
           if Qeq_bool x 0 then Some false
           else if Qeq_bool x 1 then Some true else None
       | JString s =>
           let w := ascii_str_lower s in
           if existsb (String.eqb w) [ "0"; "off"; "f"; "false"; "n"; "no" ]
           then Some false
           else if existsb (String.eqb w) [ "1"; "on"; "t"; "true"; "y"; "yes" ]
           then Some true
           else None
       | _ => None
       end |}.

(** A store call with the type of its answer. *)
Definition logged_call : Type := { X : Type & store_call X }.

(** A store that answers from a script and keeps the calls it received,
    latest first. *)
Definition scripted_store (inserted_id : string) (docs : list document)
    (ur : UpdateResult) (dr : DeleteResult)
    (X : Type) (c : store_call X) (log : list logged_call)
    : (exn + X) * list logged_call :=
  (match c in store_call X return exn + X with
   | create_document _ _ => inr inserted_id
   | get_documents _ _ _ => inr docs
   | update_one _ _ _ => inr ur
   | delete_one _ _ => inr dr
   end, existT X c :: log).

Definition empty_payload : FurnitureUpdate :=
  {| name := None; description := None; category := None; material := None;
     dimensions := None; price := None; stock := None; image_url := None;
     is_featured := None |}.

Definition price_payload (x : Q) : FurnitureUpdate :=
  {| name := None; description := None; category := None; material := None;
     dimensions := None; price := Some x; stock := None; image_url := None;
     is_featured := None |}.

(** ** The search text of a document *)

(** [d.get("name", empty)] when the name is a str or missing. *)
Definition doc_name (d : document) : string :=
  match d !! "name" with Some (VStr s) => s | _ => EmptyString end.

(** [d.get("description", empty) or empty] when the description is a str,
    [None] or missing. *)
Definition doc_description (d : document) : string :=
  match d !! "description" with Some (VStr s) => s | _ => EmptyString end.

(** The text [list_furniture] searches: the lowered name, one space, the
    lowered description. *)
Definition search_text (py : PyLib) (d : document) : string :=
  lower py (doc_name d) ++ " " ++ lower py (doc_description d).

(** The name is a str or missing; the description is a str, [None] or
    missing: the types the request models give the two fields. *)
Definition text_fields_ok (d : document) : Prop :=
  (d !! "name" = None \/ exists s, d !! "name" = Some (VStr s)) /\
  (d !! "description" = None \/ d !! "description" = Some VNone \/
   exists s, d !! "description" = Some (VStr s)).

(** The filter of the spec's words, read as the plain concatenation of name
    and description. *)
Definition spec_q_in_concatenation (py : PyLib) (q : string) (d : document)
    : bool :=
  str_in (lower py q) (lower py (doc_name d ++ doc_description d)).

(** The filter of the spec's words, read as: the name or the description
    contains [q]. *)
Definition spec_q_in_name_or_description (py : PyLib) (q : string)
    (d : document) : bool :=
  str_in (lower py q) (lower py (doc_name d)) ||
  str_in (lower py q) (lower py (doc_description d)).

(** A document satisfies an exact-match filter. *)
Definition matches (filter_dict d : document) : Prop :=
  forall k v, filter_dict !! k = Some v -> d !! k = Some v.

(** ** The update model's validation *)

(** [FurnitureUpdate.model_validate(body)]: every field is
    [Optional[T] = None]; [None] when validation fails. *)
Definition FurnitureUpdate_validate (pd : Pydantic) (body : gmap string json)
    : option FurnitureUpdate :=
  n ← with_default (validate_optional (validate_str pd)) None body "name";
  d ← with_default (validate_optional (validate_str pd)) None body "description";
  c ← with_default (validate_optional (validate_str pd)) None body "category";
  m ← with_default (validate_optional (validate_str pd)) None body "material";
  dm ← with_default (validate_optional (validate_str pd)) None body "dimensions";
  p ← with_default (validate_optional (validate_float pd)) None body "price";
  s ← with_default (validate_optional (validate_int pd)) None body "stock";
  i ← with_default (validate_optional (validate_str pd)) None body "image_url";
  f ← with_default (validate_optional (validate_bool pd)) None body "is_featured";
  Some {| name := n; description := d; category := c; material := m;
          dimensions := dm; price := p; stock := s; image_url := i;
          is_featured := f |}.

(** The names of the fields of [FurnitureUpdate]. *)
Definition update_fields : list string :=
  [ "name"; "description"; "category"; "material"; "dimensions"; "price";
    "stock"; "image_url"; "is_featured" ].

(** ** Counting store calls *)

(** On every path the handler makes at most [n] store calls, whatever the
    store answers. *)
Fixpoint calls_at_most {A : Type} (n : nat) (m : handler A) {struct m}
    : Prop :=
  match m with
  | Call _ k =>
      match n with
      | O => False
      | S n' => forall r, calls_at_most n' (k r)
      end
  | _ => True
  end.

(** ** The import statement of a handler

    Each handler starts with [from database import ...], before its [try]
    block: what the statement raises is not caught by the handler. *)

(** How the import statement fails: the module (or the name) is not there,
    or the module raises while it loads. *)
Inductive import_failure : Type :=
| ModuleNotFound
| ModuleRaises (e : exn).

(** What the import statement does: it fails, or binds what it imports. *)
Inductive import_outcome (M : Type) : Type :=
| ImportFailed (f : import_failure)
| ImportDone (m : M).

Arguments ImportFailed {M} f.
Arguments ImportDone {M} m.

(** A whole handler function: the exception of the import statement leaves
    it as it is, or the [try] block runs. *)
Inductive request (A : Type) : Type :=
| Uncaught (f : import_failure)
| Handled (h : handler A).

Arguments Uncaught {A} f.
Arguments Handled {A} h.

(** The import statement, then the body with what was imported. *)
Definition after_import {M A : Type} (imp : import_outcome M)
    (body : M -> handler A) : request A :=
  match imp with
  | ImportFailed f => Uncaught f
  | ImportDone m => Handled (body m)
  end.

(** [create_furniture] with its [from database import create_document]. *)
Definition create_furniture_request (py : PyLib) (imp : import_outcome unit)
    (item : FurnitureCreate) : request document :=
  after_import imp (fun _ => create_furniture py item).

(** [list_furniture] with its [from database import get_documents]. *)
Definition list_furniture_request (py : PyLib) (imp : import_outcome unit)
    (q category : option string) (featured : option bool) (limit : Z)
    : request (list document) :=
  after_import imp (fun _ => list_furniture py q category featured limit).

(** [update_furniture] with its [from database import db]. *)
Definition update_furniture_request (py : PyLib)
    (imp : import_outcome (option Database)) (now : datetime)
    (item_id : string) (payload : FurnitureUpdate) : request document :=
  after_import imp (fun db => update_furniture py db now item_id payload).

(** [delete_furniture] with its [from database import db]. *)
Definition delete_furniture_request (py : PyLib)
    (imp : import_outcome (option Database)) (item_id : string)
    : request document :=
  after_import imp (fun db => delete_furniture py db item_id).

(** The outcome of a request: a result, or an [HTTPException] of status
    500. *)
Definition result_or_500 {A : Type} (outcome : exn + A) : Prop :=
  match outcome with
  | inl e => exists detail, e = HTTPException 500 detail
  | inr _ => True
  end.

(** What leaves a handler function, run against a store: the exception of
    its import statement when that fails, and otherwise a result or an
    [HTTPException] of status 500. *)
Definition leaves_import_failure_or_500 {S M A : Type}
    (exec : forall X, store_call X -> S -> (exn + X) * S) (s : S)
    (imp : import_outcome M) (r : request A) : Prop :=
  match imp with
  | ImportFailed f => r = Uncaught f
  | ImportDone _ => exists h, r = Handled h /\ result_or_500 (run exec h s).1
  end.



(** A store whose every call raises [e]. *)
Definition failing_store (e : exn) (X : Type) (c : store_call X) (s : unit)
    : (exn + X) * unit :=
  (inl e, s).

(** The name is a str or missing; the description is missing, a str, or any
    value that [or] takes for false. *)
Definition text_fields_searchable (d : document) : Prop :=
  (d !! "name" = None \/ exists s, d !! "name" = Some (VStr s)) /\
  (d !! "description" = None \/
   exists v, d !! "description" = Some v /\
             (truthy v = false \/ exists s, v = VStr s)).

(** ** The diagnostics endpoint *)

(** What [test_database] sees of the [db] object: its [name] attribute
    ([None] when [hasattr(db, 'name')] is false) and what
    [db.list_collection_names()] does. *)
Record DbObject : Type := {
  db_name_attr : option string;
  list_collection_names : exn + list string
}.

(** What [from database import db] does. *)
Inductive db_import : Type :=
| ImportError                         (* the module is not there *)
| ImportRaises (e : exn)              (* the module raises while loading *)
| Imported (db : option DbObject).    (* [db], possibly [None] *)

(** The response dict of [test_database], one field per key; the two
    configuration fields start as [None]. *)
Record diagnostics : Type := {
  backend : string;
  database : string;
  database_url : option string;
  database_name : option string;
  connection_status : string;
  collections : list string
}.

(** [os.getenv(k)] as a condition: set and not empty. *)
Definition env_truthy (v : option string) : bool :=
  match v with
  | Some s => negb (String.eqb s EmptyString)
  | None => false
  end.

(** The handler of [GET /test].  [slice50] is [s[:50]]; the two last
    arguments are [os.getenv("DATABASE_URL")] and
    [os.getenv("DATABASE_NAME")].  String literals hold the UTF-8 bytes of
    the source's text. *)
Definition test_database (py : PyLib) (slice50 : string -> string)
    (imp : db_import) (env_url env_name : option string) : diagnostics :=
  let response :=
    {| backend := "✅ Running";
       database := "❌ Not Available";
       database_url := None;
       database_name := None;
       connection_status := "Not Connected";
       collections := [] |} in
  let response :=
    match imp with
    | Imported (Some db) =>
        let response :=
          {| backend := backend response;
             database := "✅ Available";
             database_url := Some "✅ Configured";
             database_name :=
               Some (match db_name_attr db with
                     | Some n => n
                     | None => "✅ Connected"
                     end);
             connection_status := "Connected";
             collections := collections response |} in
        match list_collection_names db with
        | inr names =>
            {| backend := backend response;
               database := "✅ Connected & Working";
               database_url := database_url response;
               database_name := database_name response;
               connection_status := connection_status response;
               collections := take 10 names |}
        | inl e =>
            {| backend := backend response;
               database :=
                 "⚠️  Connected but Error: " ++ slice50 (exn_str py e);
               database_url := database_url response;
               database_name := database_name response;
               connection_status := connection_status response;
               collections := collections response |}
        end
    | Imported None =>
        {| backend := backend response;
           database := "⚠️  Available but not initialized";
           database_url := database_url response;
           database_name := database_name response;
           connection_status := connection_status response;
           collections := collections response |}
    | ImportError =>
        {| backend := backend response;
           database :=
             "❌ Database module not found (run enable-database first)";
           database_url := database_url response;
           database_name := database_name response;
           connection_status := connection_status response;
           collections := collections response |}
    | ImportRaises e =>
        {| backend := backend response;
           database := "❌ Error: " ++ slice50 (exn_str py e);
           database_url := database_url response;
           database_name := database_name response;
           connection_status := connection_status response;
           collections := collections response |}
    end in
  {| backend := backend response;
     database := database response;
     database_url :=
       Some (if env_truthy env_url then "✅ Set" else "❌ Not Set");
     database_name :=
       Some (if env_truthy env_name then "✅ Set" else "❌ Not Set");
     connection_status := connection_status response;
     collections := collections response |}.

(** ** Strings *)

Lemma prefix_spec (a s : string) :
  String.prefix a s = true <-> exists b, s = a ++ b.
Proof.
  revert s. induction a as [|c a IH]; intros [|c' s]; simpl.
  - split; [intros _; by exists EmptyString | done].
  - split; [intros _; by exists (String c' s) | done].
  - split; [intros; discriminate | intros [b Hb]; discriminate].
  - destruct (Ascii.ascii_dec c c') as [->|Hne].
    + rewrite IH. split; intros [b Hb]; exists b; [by rewrite Hb | by inversion Hb].
    + split; [intros; discriminate | intros [b Hb]; inversion Hb; congruence].
Qed.

Lemma str_in_nil (sub : string) :
  str_in sub EmptyString = String.prefix sub EmptyString || false.
Proof. reflexivity. Qed.

Lemma str_in_cons (sub : string) (c : ascii) (s : string) :
  str_in sub (String c s) = String.prefix sub (String c s) || str_in sub s.
Proof. reflexivity. Qed.

Lemma str_in_spec (sub s : string) :
  str_in sub s = true <-> exists a b, s = a ++ sub ++ b.
Proof.
  induction s as [|c s IH].
  - rewrite str_in_nil, orb_false_r, prefix_spec. split.
    + intros [b Hb]. by exists EmptyString, b.
    + intros [a [b Hab]]. destruct a; simpl in Hab; [by exists b | discriminate].
  - rewrite str_in_cons, orb_true_iff, prefix_spec, IH. split.
    + intros [[b Hb] | [a [b Hab]]].
      * by exists EmptyString, b.
      * exists (String c a), b. simpl. by rewrite Hab.
    + intros [a [b Hab]]. destruct a as [|c' a]; simpl in Hab.
      * left. by exists b.
      * right. inversion Hab; subst. by exists a, b.
Qed.

(** ** Dicts built from items *)

Lemma fold_insert_lookup (items : list (string * value)) (m : document)
    (k : string) (v : value) :
  NoDup items.*1 ->
  (fold_left (fun d kv => <[kv.1 := kv.2]> d) items m) !! k = Some v <->
  (k, v) ∈ items \/ ((k ∉ items.*1) /\ m !! k = Some v).
Proof.
  revert m. induction items as [|[k0 v0] items IH]; intros m Hnd; simpl.
  - split; [intros H; right; split; [apply not_elem_of_nil | done] |].
    intros [H | [_ H]]; [by apply elem_of_nil in H | done].
  - apply NoDup_cons in Hnd as [Hk0 Hnd]. rewrite (IH _ Hnd).
    rewrite elem_of_cons, not_elem_of_cons. split.
    + intros [H | [Hk H]]; [by left; right |].
      apply lookup_insert_Some in H as [[-> ->] | [Hne H]]; [by left; left |].
      right. by repeat split.
    + intros [[H | H] | [[Hne Hk] H]].
      * injection H as -> ->. right. split; [done | apply lookup_insert_eq].
      * by left.
      * right. split; [done |]. by rewrite lookup_insert_ne.
Qed.

Lemma dict_of_items_lookup (items : list (string * value)) (k : string)
    (v : value) :
  NoDup items.*1 -> dict_of_items items !! k = Some v <-> (k, v) ∈ items.
Proof.
  intros Hnd. unfold dict_of_items. rewrite (fold_insert_lookup _ _ _ _ Hnd).
  rewrite lookup_empty. split; [by intros [H | [_ H]] | by left].
Qed.

Lemma NoDup_fst_filter (P : string * value -> Prop) `{!forall x, Decision (P x)}
    (items : list (string * value)) :
  NoDup items.*1 -> NoDup (filter P items).*1.
Proof.
  induction items as [|[k v] items IH]; simpl; [done |].
  rewrite NoDup_cons. intros [Hk Hnd]. rewrite filter_cons.
  destruct (decide (P (k, v))); [| by apply IH].
  simpl. apply NoDup_cons. split; [| by apply IH].
  intros Hin. apply Hk. apply list_elem_of_fmap in Hin as [[k' v'] [-> Hin]].
  apply list_elem_of_filter in Hin as [_ Hin].
  apply list_elem_of_fmap. by exists (k', v').
Qed.

Lemma model_dump_NoDup (payload : FurnitureUpdate) :
  NoDup (model_dump payload).*1.
Proof.
  unfold model_dump. simpl. repeat (apply NoDup_cons; split);
    [.. | apply NoDup_nil_2]; rewrite ?elem_of_cons, ?elem_of_nil;
    intros H; repeat (destruct H as [H | H]; [discriminate |]); done.
Qed.

Lemma is_not_None_spec (v : value) : is_not_None v <-> v <> VNone.
Proof. destruct v; simpl; naive_solver. Qed.

(** The change-set before the stamp holds exactly the payload's non-null
    fields. *)
Lemma non_null_fields_lookup (payload : FurnitureUpdate) (k : string)
    (v : value) :
  non_null_fields payload !! k = Some v <->
  (k, v) ∈ model_dump payload /\ v <> VNone.
Proof.
  unfold non_null_fields. rewrite dict_of_items_lookup.
  - rewrite list_elem_of_filter. simpl. rewrite is_not_None_spec. tauto.
  - apply NoDup_fst_filter, model_dump_NoDup.
Qed.

Lemma non_null_fields_empty (payload : FurnitureUpdate) :
  non_null_fields payload = ∅ <->
  Forall (fun kv => kv.2 = VNone) (model_dump payload).
Proof.
  rewrite map_empty, Forall_forall. split.
  - intros H [k v] Hin. simpl.
    assert (v <> VNone -> non_null_fields payload !! k = Some v) as Hk
      by (intros Hne; by apply non_null_fields_lookup).
    rewrite H in Hk. destruct v; [done | by discriminate Hk ..].
  - intros H k. destruct (non_null_fields payload !! k) as [v|] eqn:Hk; [| done].
    apply non_null_fields_lookup in Hk as [Hin Hne]. by apply H in Hin.
Qed.

Lemma model_dump_functional (payload : FurnitureUpdate) (k : string)
    (v1 v2 : value) :
  (k, v1) ∈ model_dump payload -> (k, v2) ∈ model_dump payload -> v1 = v2.
Proof.
  intros H1 H2.
  apply (dict_of_items_lookup _ _ _ (model_dump_NoDup payload)) in H1, H2.
  congruence.
Qed.

Lemma model_dump_not_updated_at (payload : FurnitureUpdate) (v : value) :
  ("updated_at", v) ∉ model_dump payload.
Proof.
  unfold model_dump. rewrite !not_elem_of_cons.
  repeat split; try discriminate. apply not_elem_of_nil.
Qed.

(** ** Update and delete *)

(** The update handler on an empty change-set. *)
Lemma update_furniture_empty (py : PyLib) (db : option Database)
    (now : datetime) (item_id : string) (payload : FurnitureUpdate) :
  non_null_fields payload = ∅ ->
  update_furniture py db now item_id payload =
    Return {[ "updated" := VBool false ]}.
Proof.
  intros Hempty. unfold update_furniture.
  destruct (decide (non_null_fields payload = ∅)); [reflexivity | done].
Qed.

(** The update handler on a non-empty change-set, a configured database and
    a well-formed identifier: one [update_one] call, and the [except] clause
    around what follows it. *)
Lemma update_furniture_call (py : PyLib) (db : Database) (now : datetime)
    (item_id : string) (payload : FurnitureUpdate) (oid : ObjectId) :
  non_null_fields payload <> ∅ ->
  ObjectId_new py item_id = Some oid ->
  exists k,
    update_furniture py (Some db) now item_id payload =
      Call (update_one "furniture" {[ "_id" := VObjectId oid ]}
              (UpdateSet (<["updated_at" := VDatetime now]>
                            (non_null_fields payload)))) k /\
    (forall e, k (inl e) = to_500 py e) /\
    (forall result,
       k (inr result) =
         if Z.eqb (matched_count result) 0
         then to_500 py (HTTPException 404 "Item not found")
         else Return {[ "updated" := VBool true ]}).
Proof.
  intros Hne Hoid. unfold update_furniture.
  destruct (decide (non_null_fields payload = ∅)); [done |].
  unfold new_ObjectId. rewrite Hoid. simpl. eexists. split; [reflexivity |].
  split; [done |]. intros result. simpl.
  by destruct (Z.eqb (matched_count result) 0).
Qed.

(** The update handler when the identifier is malformed or no database is
    configured: it raises before any store call. *)
Lemma update_furniture_no_call (py : PyLib) (db : option Database)
    (now : datetime) (item_id : string) (payload : FurnitureUpdate) :
  non_null_fields payload <> ∅ ->
  db = None \/ ObjectId_new py item_id = None ->
  update_furniture py db now item_id payload =
    to_500 py (match db with
               | None => TypeError
               | Some _ => InvalidId item_id
               end).
Proof.
  intros Hne Hbad. unfold update_furniture.
  destruct (decide (non_null_fields payload = ∅)); [done |].
  destruct db as [d|]; [| reflexivity].
  destruct Hbad as [Hdb | Hoid]; [discriminate |].
  unfold new_ObjectId. by rewrite Hoid.
Qed.

Lemma delete_furniture_call (py : PyLib) (db : Database) (item_id : string)
    (oid : ObjectId) :
  ObjectId_new py item_id = Some oid ->
  exists k,
    delete_furniture py (Some db) item_id =
      Call (delete_one "furniture" {[ "_id" := VObjectId oid ]}) k /\
    (forall e, k (inl e) = to_500 py e) /\
    (forall result,
       k (inr result) =
         if Z.eqb (deleted_count result) 0
         then to_500 py (HTTPException 404 "Item not found")
         else Return {[ "deleted" := VBool true ]}).
Proof.
  intros Hoid. unfold delete_furniture, new_ObjectId. rewrite Hoid. simpl.
  eexists. split; [reflexivity |]. split; [done |]. intros result. simpl.
  by destruct (Z.eqb (deleted_count result) 0).
Qed.

Lemma delete_furniture_no_call (py : PyLib) (db : option Database)
    (item_id : string) :
  db = None \/ ObjectId_new py item_id = None ->
  delete_furniture py db item_id =
    to_500 py (match db with
               | None => TypeError
               | Some _ => InvalidId item_id
               end).
Proof.
  intros Hbad. unfold delete_furniture.
  destruct db as [d|]; [| reflexivity].
  destruct Hbad as [Hdb | Hoid]; [discriminate |].
  unfold new_ObjectId. by rewrite Hoid.
Qed.

Lemma some_non_null_field (payload : FurnitureUpdate) :
  (exists k v, (k, v) ∈ model_dump payload /\ v <> VNone) <->
  non_null_fields payload <> ∅.
Proof.
  rewrite non_null_fields_empty, Forall_forall. split.
  - intros [k [v [Hin Hne]]] Hall. by apply Hall in Hin.
  - intros Hnot.
    destruct (decide (non_null_fields payload = ∅)) as [Hempty | Hne].
    + exfalso. apply Hnot. by apply Forall_forall, non_null_fields_empty.
    + apply map_choose in Hne as [k [v Hk]].
      apply non_null_fields_lookup in Hk. by exists k, v.
Qed.

(** C1, on the code: a well-formed identifier that matches no document.  The
    store answers [matched_count = 0] (for delete, [deleted_count = 0]); the
    handler raises the 404 inside its own [try] block, the [except] clause
    catches it, and the client receives status 500 whose detail is the text
    of the 404. *)
Theorem not_found_is_reported_as_500 :
  let store :=
    scripted_store "unused" []
      {| matched_count := 0; modified_count := 0 |} {| deleted_count := 0 |} in
  let item_id := "0000000000000000000000ff" in
  ObjectId_new example_py item_id = Some 255%N /\
  (run store
     (update_furniture example_py (Some (Db "shop")) 7 item_id
        (price_payload (19999 # 100))) []).1
  = inl (HTTPException 500 "404: Item not found") /\
  (run store (delete_furniture example_py (Some (Db "shop")) item_id) []).1
  = inl (HTTPException 500 "404: Item not found").
Proof. vm_compute. repeat split. Qed.

(** The same for every library instance: once the store reports no match,
    both handlers end in status 500. *)
Lemma not_found_status (py : PyLib) (db : Database) (now : datetime)
    (item_id : string) (payload : FurnitureUpdate) (oid : ObjectId) :
  non_null_fields payload <> ∅ ->
  ObjectId_new py item_id = Some oid ->
  exists ku kd,
    update_furniture py (Some db) now item_id payload =
      Call (update_one "furniture" {[ "_id" := VObjectId oid ]}
              (UpdateSet (<["updated_at" := VDatetime now]>
                            (non_null_fields payload)))) ku /\
    delete_furniture py (Some db) item_id =
      Call (delete_one "furniture" {[ "_id" := VObjectId oid ]}) kd /\
    (forall n, ku (inr {| matched_count := 0; modified_count := n |}) =
       Raise (HTTPException 500
                (exn_str py (HTTPException 404 "Item not found")))) /\
    kd (inr {| deleted_count := 0 |}) =
      Raise (HTTPException 500
               (exn_str py (HTTPException 404 "Item not found"))).
Proof.
  intros Hne Hoid.
  destruct (update_furniture_call py db now item_id payload oid Hne Hoid)
    as [ku [Hu [_ Hku]]].
  destruct (delete_furniture_call py db item_id oid Hoid) as [kd [Hd [_ Hkd]]].
  exists ku, kd. repeat split; [done | done | |].
  - intros n. by rewrite Hku.
  - by rewrite Hkd.
Qed.

(** C2: when every field of the payload is null, the update handler returns
    [{updated: false}] without calling the store; run against any store, it
    leaves the store's state, and so every stored [updated_at], as it was. *)
Theorem update_all_null_is_no_op (py : PyLib) (db : option Database)
    (now : datetime) (item_id : string) (payload : FurnitureUpdate) :
  Forall (fun kv => kv.2 = VNone) (model_dump payload) ->
  update_furniture py db now item_id payload =
    Return {[ "updated" := VBool false ]} /\
  no_store_call (update_furniture py db now item_id payload) /\
  forall (S : Type) (exec : forall X, store_call X -> S -> (exn + X) * S)
         (s : S),
    run exec (update_furniture py db now item_id payload) s =
      (inr {[ "updated" := VBool false ]}, s).
Proof.
  intros Hnull. apply non_null_fields_empty in Hnull.
  rewrite (update_furniture_empty py db now item_id payload Hnull).
  repeat split.
Qed.

Lemma update_all_null_is_no_op_witness :
  Forall (fun kv => kv.2 = VNone) (model_dump empty_payload) /\
  update_furniture example_py None 7 "chair" empty_payload =
    Return {[ "updated" := VBool false ]}.
Proof.
  assert (Forall (fun kv : string * value => kv.2 = VNone)
            (model_dump empty_payload)) as Hnull
    by (repeat constructor).
  split; [exact Hnull |].
  exact (proj1 (update_all_null_is_no_op example_py None 7 "chair"
                  empty_payload Hnull)).
Defined.

(** C3: when the payload has a non-null field (the database is configured
    and the identifier well formed), the handler sends one [update_one] for
    that identifier whose [$set] holds exactly the payload's non-null fields
    and [updated_at] set to the current time: a field left null is not in
    it, no value in it is [None], and when the store reports a match the
    handler returns [{updated: true}]. *)
Theorem update_writes_non_null_fields (py : PyLib) (db : Database)
    (now : datetime) (item_id : string) (payload : FurnitureUpdate)
    (oid : ObjectId) :
  (exists f v, (f, v) ∈ model_dump payload /\ v <> VNone) ->
  ObjectId_new py item_id = Some oid ->
  exists (change_set : document) (k : exn + UpdateResult -> handler document),
    update_furniture py (Some db) now item_id payload =
      Call (update_one "furniture" {[ "_id" := VObjectId oid ]}
              (UpdateSet change_set)) k /\
    (forall f v,
       change_set !! f = Some v <->
       ((f, v) ∈ model_dump payload /\ v <> VNone) \/
       (f = "updated_at" /\ v = VDatetime now)) /\
    (forall f, (f, VNone) ∈ model_dump payload -> change_set !! f = None) /\
    (forall f, change_set !! f <> Some VNone) /\
    (forall result,
       matched_count result <> 0 ->
       k (inr result) = Return {[ "updated" := VBool true ]}).
Proof.
  intros Hsome Hoid. apply some_non_null_field in Hsome.
  destruct (update_furniture_call py db now item_id payload oid Hsome Hoid)
    as [k [Hcall [_ Hk]]].
  eexists _, k. split; [exact Hcall |].
  assert (forall f v,
            (<["updated_at" := VDatetime now]> (non_null_fields payload)) !! f
              = Some v <->
            ((f, v) ∈ model_dump payload /\ v <> VNone) \/
            (f = "updated_at" /\ v = VDatetime now)) as Hset.
  { intros f v. rewrite lookup_insert_Some, non_null_fields_lookup. split.
    - intros [[<- <-] | [_ H]]; [by right | by left].
    - intros [[Hin Hv] | [-> ->]]; [| by left].
      right. split; [| done]. intros <-.
      by apply model_dump_not_updated_at in Hin. }
  repeat split.
  - by apply Hset.
  - by apply Hset.
  - intros f Hin.
    destruct ((<["updated_at" := VDatetime now]> (non_null_fields payload)) !! f)
      as [v|] eqn:Hf; [| done].
    apply Hset in Hf as [[Hin' Hv] | [-> _]].
    + by rewrite (model_dump_functional _ _ _ _ Hin Hin') in Hv.
    + by apply model_dump_not_updated_at in Hin.
  - intros f Hf. apply Hset in Hf as [[_ Hv] | [_ Hv]]; [done | discriminate].
  - intros result Hm. rewrite Hk.
    destruct (Z.eqb_spec (matched_count result) 0); [done | reflexivity].
Qed.

Lemma update_writes_non_null_fields_witness :
  exists (change_set : document) (k : exn + UpdateResult -> handler document),
    update_furniture example_py (Some (Db "shop")) 7
      "0000000000000000000000ff" (price_payload (19999 # 100)) =
      Call (update_one "furniture" {[ "_id" := VObjectId 255%N ]}
              (UpdateSet change_set)) k /\
    change_set !! "price" = Some (VFloat (19999 # 100)) /\
    change_set !! "name" = None /\
    k (inr {| matched_count := 1; modified_count := 1 |}) =
      Return {[ "updated" := VBool true ]}.
Proof.
  assert (exists f v, (f, v) ∈ model_dump (price_payload (19999 # 100)) /\
                      v <> VNone) as Hsome.
  { exists "price", (VFloat (19999 # 100)). split; [| discriminate].
    unfold model_dump. simpl. do 5 apply list_elem_of_further.
    apply list_elem_of_here. }
  destruct (update_writes_non_null_fields example_py (Db "shop") 7
              "0000000000000000000000ff" (price_payload (19999 # 100)) 255%N
              Hsome eq_refl) as [cs [k [Hcall [Hset [Hnull [_ Hk]]]]]].
  exists cs, k. split; [exact Hcall |]. split; [| split].
  - apply Hset. left. split; [| discriminate].
    unfold model_dump. simpl. do 5 apply list_elem_of_further.
    apply list_elem_of_here.
  - apply Hnull. unfold model_dump. simpl. apply list_elem_of_here.
  - apply Hk. simpl. discriminate.
Defined.

(** C9, as stated, fails: with a malformed identifier and a payload whose
    fields are all null, the update handler does not fail at all. *)
Lemma malformed_id_update_counterexample :
  ObjectId_new example_py "not-an-id" = None /\
  update_furniture example_py (Some (Db "shop")) 7 "not-an-id" empty_payload =
    Return {[ "updated" := VBool false ]}.
Proof. split; reflexivity. Qed.

(** C9, amended: on a malformed identifier neither handler calls the store;
    delete ends in status 500, update ends in status 500 when the payload has
    a non-null field and returns [{updated: false}] when it has none.  The
    detail is the text of the identifier's parsing error, or of the failed
    subscript when no database is configured. *)
Theorem malformed_id_no_store_call (py : PyLib) (db : option Database)
    (now : datetime) (item_id : string) (payload : FurnitureUpdate) :
  ObjectId_new py item_id = None ->
  let e := match db with None => TypeError | Some _ => InvalidId item_id end in
  delete_furniture py db item_id = Raise (HTTPException 500 (exn_str py e)) /\
  no_store_call (delete_furniture py db item_id) /\
  no_store_call (update_furniture py db now item_id payload) /\
  ((exists f v, (f, v) ∈ model_dump payload /\ v <> VNone) ->
   update_furniture py db now item_id payload =
     Raise (HTTPException 500 (exn_str py e))) /\
  (Forall (fun kv => kv.2 = VNone) (model_dump payload) ->
   update_furniture py db now item_id payload =
     Return {[ "updated" := VBool false ]}).
Proof.
  intros Hoid e.
  assert (delete_furniture py db item_id =
            Raise (HTTPException 500 (exn_str py e))) as Hd
    by (apply delete_furniture_no_call; by right).
  split; [exact Hd |]. split; [by rewrite Hd |].
  assert (non_null_fields payload <> ∅ ->
          update_furniture py db now item_id payload =
            Raise (HTTPException 500 (exn_str py e))) as Hu
    by (intros Hne; apply update_furniture_no_call; [done | by right]).
  split; [| split].
  - destruct (decide (non_null_fields payload = ∅)) as [Hempty | Hne].
    + by rewrite (update_furniture_empty py db now item_id payload Hempty).
    + by rewrite (Hu Hne).
  - intros Hsome. apply Hu. by apply some_non_null_field.
  - intros Hnull. apply update_furniture_empty. by apply non_null_fields_empty.
Qed.

Lemma malformed_id_no_store_call_witness :
  ObjectId_new example_py "not-an-id" = None /\
  delete_furniture example_py (Some (Db "shop")) "not-an-id" =
    Raise (HTTPException 500
             ("'not-an-id' is not a valid ObjectId, it must be a 12-byte input"
              ++ " or a 24-character hex string")).
Proof.
  split; [reflexivity |].
  exact (proj1 (malformed_id_no_store_call example_py (Some (Db "shop")) 7
                  "not-an-id" empty_payload eq_refl)).
Defined.

(** ** Listing *)

(** [list_furniture] makes one [get_documents] call.  The filter it sends
    has the key [category] when the parameter is a non-empty string, the key
    [is_featured] when [featured] is given, and no other key; what follows
    the call is the [q] filter and the identifier conversion, inside the
    [except] clause. *)
Lemma list_furniture_call (py : PyLib) (q category : option string)
    (featured : option bool) (limit : Z) :
  exists (filter_dict : document) k,
    list_furniture py q category featured limit =
      Call (get_documents "furniture" filter_dict limit) k /\
    filter_dict !! "category" =
      match category with
      | Some c => if String.eqb c EmptyString then None else Some (VStr c)
      | None => None
      end /\
    filter_dict !! "is_featured" = VBool <$> featured /\
    (forall key, key <> "category" -> key <> "is_featured" ->
                 filter_dict !! key = None) /\
    (forall e, k (inl e) = to_500 py e) /\
    (forall docs, k (inr docs) = list_after_call py q docs).
Proof.
  unfold list_furniture, list_after_call. simpl. eexists _, _. split; [reflexivity |].
  repeat split.
  - destruct category as [c|], featured as [f|]; simpl;
      try destruct (String.eqb c EmptyString); by simplify_map_eq.
  - destruct category as [c|], featured as [f|]; simpl;
      try destruct (String.eqb c EmptyString); by simplify_map_eq.
  - intros key Hc Hf. destruct category as [c|], featured as [f|]; simpl;
      try destruct (String.eqb c EmptyString); by simplify_map_eq.
Qed.

(** On a document whose name and description have the types of the request
    models, the condition of the comprehension is a substring test on the
    search text. *)
Lemma q_in_doc_text (py : PyLib) (q_lower : string) (d : document) :
  text_fields_ok d ->
  q_in_doc py q_lower d = Return (str_in q_lower (search_text py d)).
Proof.
  intros [Hn Hd]. unfold q_in_doc, search_text, doc_name, doc_description,
    dict_get.
  destruct Hn as [-> | [n ->]]; destruct Hd as [-> | [-> | [ds ->]]];
    simpl; try reflexivity.
  all: unfold py_or; simpl; destruct ds; reflexivity.
Qed.

(** In general the condition is a boolean or an [AttributeError]. *)
Lemma q_in_doc_outcome (py : PyLib) (q_lower : string) (d : document) :
  (exists b, q_in_doc py q_lower d = Return b) \/
  (exists v, q_in_doc py q_lower d = Raise (AttributeError v)).
Proof.
  unfold q_in_doc.
  destruct (dict_get d "name" (VStr EmptyString)); simpl; eauto.
  destruct (py_or _ _); simpl; eauto.
Qed.

Lemma docs_with_q_text (py : PyLib) (q_lower : string) (docs : list document) :
  Forall text_fields_ok docs ->
  docs_with_q py q_lower docs =
    Return (filter (fun d => str_in q_lower (search_text py d)) docs).
Proof.
  induction 1 as [|d docs Hd _ IH]; [reflexivity |].
  simpl. rewrite (q_in_doc_text py q_lower d Hd). simpl. rewrite IH. simpl.
  rewrite filter_cons.
  destruct (str_in q_lower (search_text py d)); simpl; reflexivity.
Qed.

(** The comprehension keeps a sublist of the documents, in their order, or
    raises an [AttributeError]. *)
Lemma docs_with_q_outcome (py : PyLib) (q_lower : string)
    (docs : list document) :
  (exists kept, docs_with_q py q_lower docs = Return kept /\
                kept `sublist_of` docs) \/
  (exists v, docs_with_q py q_lower docs = Raise (AttributeError v)).
Proof.
  induction docs as [|d docs IH]; simpl.
  - left. by exists [].
  - destruct (q_in_doc_outcome py q_lower d) as [[b ->] | [v ->]]; simpl;
      [| right; by exists v].
    destruct IH as [[kept [-> Hsub]] | [v ->]]; simpl; [| right; by exists v].
    left. destruct b; eexists; split; try reflexivity; by constructor.
Qed.

(** What [list_furniture] does with the store's answer: it returns the
    converted documents of a sublist of the answer (the whole answer when
    [q] is absent or empty), or ends in status 500. *)
Lemma list_after_call_outcome (py : PyLib) (q : option string)
    (docs : list document) :
  (exists kept,
     list_after_call py q docs = Return (map (convert_id py) kept) /\
     kept `sublist_of` docs /\
     (q = None \/ q = Some EmptyString -> kept = docs)) \/
  (exists v,
     list_after_call py q docs =
       Raise (HTTPException 500 (exn_str py (AttributeError v)))).
Proof.
  unfold list_after_call. destruct q as [q|]; simpl.
  - destruct (String.eqb_spec q EmptyString) as [-> | Hq]; simpl.
    + left. by exists docs.
    + destruct (docs_with_q_outcome py (lower py q) docs)
        as [[kept [-> Hsub]] | [v ->]]; simpl.
      * left. exists kept. repeat split; [done |].
        intros [H | H]; [discriminate | congruence].
      * right. by exists v.
  - left. by exists docs.
Qed.

Lemma string_app_assoc (a b c : string) : (a ++ b) ++ c = a ++ b ++ c.
Proof.
  induction a as [|x a IH]; [done |].
  change (String x ((a ++ b) ++ c) = String x (a ++ b ++ c)). by rewrite IH.
Qed.

(** The conversion touches only the keys [_id] and [id]. *)
Lemma convert_id_lookup_other (py : PyLib) (d : document) (key : string) :
  key <> "_id" -> key <> "id" -> convert_id py d !! key = d !! key.
Proof.
  intros H1 H2. unfold convert_id.
  destruct (d !! "_id") as [[]|]; try done.
  rewrite lookup_insert_ne by done. by rewrite lookup_delete_ne.
Qed.

Lemma convert_id_ObjectId (py : PyLib) (d : document) (o : ObjectId) :
  d !! "_id" = Some (VObjectId o) ->
  convert_id py d !! "id" = Some (VStr (ObjectId_str py o)) /\
  convert_id py d !! "_id" = None.
Proof.
  intros H. unfold convert_id. rewrite H. split.
  - apply lookup_insert_eq.
  - rewrite lookup_insert_ne by done. apply lookup_delete_eq.
Qed.

Lemma convert_id_other (py : PyLib) (d : document) :
  (forall o, d !! "_id" <> Some (VObjectId o)) -> convert_id py d = d.
Proof.
  intros H. unfold convert_id.
  destruct (d !! "_id") as [[]|] eqn:Hid; try done. by destruct (H o).
Qed.

(** C4, as stated, fails in both of its readings.  With [q = "a b"] the
    handler keeps a document named "a" and described as "b", although "a b"
    occurs neither in "ab" nor in "a" nor in "b"; with [q = "oak"] it drops a
    document named "oa" and described as "k", although "oak" is the
    concatenation of the two. *)
Lemma list_q_counterexample :
  let store docs :=
    scripted_store "unused" docs
      {| matched_count := 0; modified_count := 0 |} {| deleted_count := 0 |} in
  let d1 : document := {[ "name" := VStr "a"; "description" := VStr "b" ]} in
  let d2 : document := {[ "name" := VStr "oa"; "description" := VStr "k" ]} in
  ((run (store [d1]) (list_furniture example_py (Some "a b") None None 50) []).1
     = inr [d1] /\
   spec_q_in_concatenation example_py "a b" d1 = false /\
   spec_q_in_name_or_description example_py "a b" d1 = false) /\
  ((run (store [d2]) (list_furniture example_py (Some "oak") None None 50) []).1
     = inr [] /\
   spec_q_in_concatenation example_py "oak" d2 = true).
Proof. vm_compute. repeat split. Qed.

(** C4, amended: with a non-empty [q], and documents whose name and
    description have the types of the request models, the handler keeps, in
    the store's order, exactly the documents in whose search text the lowered
    [q] occurs as a substring; the search text is the lowered name, one
    space, and the lowered description (empty when null or missing).  So
    every document whose name or whose description contains [q]
    case-insensitively is kept. *)
Theorem list_q_filter (py : PyLib) (q : string) (category : option string)
    (featured : option bool) (limit : Z) (docs : list document) :
  q <> EmptyString ->
  Forall text_fields_ok docs ->
  exists filter_dict k,
    list_furniture py (Some q) category featured limit =
      Call (get_documents "furniture" filter_dict limit) k /\
    k (inr docs) =
      Return (map (convert_id py)
                (filter (fun d => str_in (lower py q) (search_text py d))
                   docs)) /\
    (forall d,
       str_in (lower py q) (search_text py d) = true <->
       exists a b,
         lower py (doc_name d) ++ " " ++ lower py (doc_description d) =
           a ++ lower py q ++ b) /\
    (forall d,
       spec_q_in_name_or_description py q d = true ->
       str_in (lower py q) (search_text py d) = true).
Proof.
  intros Hq Hok.
  destruct (list_furniture_call py (Some q) category featured limit)
    as [filter_dict [k [Hcall [_ [_ [_ [_ Hk]]]]]]].
  exists filter_dict, k. split; [exact Hcall |]. split; [| split].
  - rewrite Hk. unfold list_after_call.
    destruct (String.eqb_spec q EmptyString) as [-> | _]; [done |].
    by rewrite (docs_with_q_text py (lower py q) docs Hok).
  - intros d. apply str_in_spec.
  - intros d. unfold spec_q_in_name_or_description. rewrite orb_true_iff.
    rewrite !str_in_spec. unfold search_text.
    intros [[a [b ->]] | [a [b ->]]].
    + exists a, (b ++ " " ++ lower py (doc_description d)).
      by rewrite !string_app_assoc.
    + exists (lower py (doc_name d) ++ " " ++ a), b.
      by rewrite !string_app_assoc.
Qed.

Lemma list_q_filter_witness :
  let d1 : document := {[ "name" := VStr "Oak table" ]} in
  let d2 : document := {[ "name" := VStr "Sofa"; "description" := VNone ]} in
  exists filter_dict k,
    list_furniture example_py (Some "OAK") None None 50 =
      Call (get_documents "furniture" filter_dict 50) k /\
    k (inr [d1; d2]) = Return [d1].
Proof.
  intros d1 d2.
  assert (Forall text_fields_ok [d1; d2]) as Hok.
  { apply Forall_cons; split; [| apply Forall_cons; split; [| apply Forall_nil_2]].
    - split; [right; eexists; reflexivity | left; reflexivity].
    - split; [right; eexists; reflexivity | right; left; reflexivity]. }
  destruct (list_q_filter example_py "OAK" None None 50 [d1; d2]
              ltac:(discriminate) Hok) as [filter_dict [k [Hcall [Hk _]]]].
  exists filter_dict, k. split; [exact Hcall |]. rewrite Hk. reflexivity.
Defined.

(** C5, as stated, fails: with [category] present but empty the filter sent
    to the store has no [category] key, and a document of the category
    "chairs" is returned although the requested category is the empty
    string. *)
Lemma list_filter_counterexample :
  let chair : document := {[ "name" := VStr "stool"; "category" := VStr "chairs" ]} in
  exists k,
    list_furniture example_py None (Some EmptyString) None 50 =
      Call (get_documents "furniture" ∅ 50) k /\
    k (inr [chair]) = Return [chair] /\
    chair !! "category" <> Some (VStr EmptyString).
Proof. eexists. split; [reflexivity |]. split; [reflexivity | discriminate]. Qed.

(** C5, amended: the exact-match filter sent to the store has the key
    [category] if and only if the category parameter is present and not
    empty, the key [is_featured] if and only if [featured] is present, each
    with the requested value, and no other key; so when the store answers
    with documents that match the filter, every returned document has the
    requested non-empty category and the requested [is_featured]. *)
Theorem list_exact_match_filter (py : PyLib) (q category : option string)
    (featured : option bool) (limit : Z) (docs : list document) :
  exists filter_dict k,
    list_furniture py q category featured limit =
      Call (get_documents "furniture" filter_dict limit) k /\
    (is_Some (filter_dict !! "category") <->
     exists c, category = Some c /\ c <> EmptyString) /\
    (is_Some (filter_dict !! "is_featured") <-> is_Some featured) /\
    (forall key, key <> "category" -> key <> "is_featured" ->
                 filter_dict !! key = None) /\
    (forall c, category = Some c -> c <> EmptyString ->
               filter_dict !! "category" = Some (VStr c)) /\
    (forall f, featured = Some f ->
               filter_dict !! "is_featured" = Some (VBool f)) /\
    (forall result,
       (forall d, d ∈ docs -> matches filter_dict d) ->
       k (inr docs) = Return result ->
       forall d', d' ∈ result ->
         (forall c, category = Some c -> c <> EmptyString ->
                    d' !! "category" = Some (VStr c)) /\
         (forall f, featured = Some f -> d' !! "is_featured" = Some (VBool f))).
Proof.
  destruct (list_furniture_call py q category featured limit)
    as [filter_dict [k [Hcall [Hcat [Hfeat [Hother [_ Hk]]]]]]].
  assert (forall c, category = Some c -> c <> EmptyString ->
                    filter_dict !! "category" = Some (VStr c)) as Hc.
  { intros c -> Hne. rewrite Hcat.
    by destruct (String.eqb_spec c EmptyString). }
  assert (forall f, featured = Some f ->
                    filter_dict !! "is_featured" = Some (VBool f)) as Hf.
  { intros f ->. by rewrite Hfeat. }
  assert (forall result d',
            (forall d, d ∈ docs -> matches filter_dict d) ->
            k (inr docs) = Return result -> d' ∈ result ->
            exists d, d' = convert_id py d /\ matches filter_dict d) as Hres.
  { intros result d' Hmatch Hret Hin. rewrite Hk in Hret.
    destruct (list_after_call_outcome py q docs)
      as [[kept [Hkept [Hsub _]]] | [v Hraise]]; [| congruence].
    rewrite Hkept in Hret. injection Hret as <-.
    apply list_elem_of_fmap in Hin as [d [-> Hd]].
    exists d. split; [done |]. apply Hmatch. by eapply elem_of_sublist. }
  exists filter_dict, k. split; [exact Hcall |].
  split; [| split; [| split; [exact Hother | split; [exact Hc | split;
    [exact Hf |]]]]].
  - rewrite Hcat. destruct category as [c|].
    + destruct (String.eqb_spec c EmptyString) as [-> | Hne].
      * split; [intros [? ?]; discriminate |].
        intros [c' [Hc' Hne']]. congruence.
      * split; [intros _; by exists c | intros _; by eexists].
    + split; [intros [? ?]; discriminate | intros [? [? ?]]; discriminate].
  - rewrite Hfeat. destruct featured; simpl; split; intros [? ?];
      (discriminate || by eexists).
  - intros result Hmatch Hret d' Hin.
    destruct (Hres result d' Hmatch Hret Hin) as [d [-> Hd]].
    split.
    + intros c Hcsome Hne. rewrite convert_id_lookup_other by done.
      apply Hd. by apply Hc.
    + intros f Hfsome. rewrite convert_id_lookup_other by done.
      apply Hd. by apply Hf.
Qed.

Lemma list_exact_match_filter_witness :
  let chair : document :=
    {[ "name" := VStr "stool"; "category" := VStr "chairs";
       "is_featured" := VBool true ]} in
  exists filter_dict k,
    list_furniture example_py None (Some "chairs") (Some true) 50 =
      Call (get_documents "furniture" filter_dict 50) k /\
    filter_dict !! "category" = Some (VStr "chairs") /\
    filter_dict !! "is_featured" = Some (VBool true) /\
    matches filter_dict chair /\
    forall result d',
      k (inr [chair]) = Return result -> d' ∈ result ->
      d' !! "category" = Some (VStr "chairs") /\
      d' !! "is_featured" = Some (VBool true).
Proof.
  intros chair.
  destruct (list_exact_match_filter example_py None (Some "chairs") (Some true)
              50 [chair])
    as [filter_dict [k [Hcall [_ [_ [Hother [Hc [Hf Hres]]]]]]]].
  exists filter_dict, k. split; [exact Hcall |].
  pose proof (Hc "chairs" eq_refl ltac:(discriminate)) as Hcat.
  pose proof (Hf true eq_refl) as Hfeat.
  assert (matches filter_dict chair) as Hmatch.
  { intros key v Hkey.
    destruct (String.eqb_spec key "category") as [-> | Hk1];
      [rewrite Hcat in Hkey; by injection Hkey as <- |].
    destruct (String.eqb_spec key "is_featured") as [-> | Hk2];
      [rewrite Hfeat in Hkey; by injection Hkey as <- |].
    rewrite (Hother key Hk1 Hk2) in Hkey. discriminate. }
  split; [exact Hcat |]. split; [exact Hfeat |]. split; [exact Hmatch |].
  intros result d' Hret Hin.
  assert (forall d, d ∈ [chair] -> matches filter_dict d) as Hall
    by (intros d Hd; by apply list_elem_of_singleton in Hd as ->).
  destruct (Hres result Hall Hret d' Hin) as [H1 H2]. split.
  - apply (H1 "chairs"); [reflexivity | discriminate].
  - by apply (H2 true).
Defined.

(** C6: whenever the store's answer to the limited query has at most
    [limit] documents, the handler either returns a sequence that is no
    longer than the answer, so of length at most [limit], or ends in status
    500; with [q] it can only drop documents. *)
Theorem list_length_le_limit (py : PyLib) (q category : option string)
    (featured : option bool) (limit : Z) (docs : list document) :
  Z.of_nat (length docs) <= limit ->
  exists filter_dict k,
    list_furniture py q category featured limit =
      Call (get_documents "furniture" filter_dict limit) k /\
    ((exists result,
        k (inr docs) = Return result /\
        (length result <= length docs)%nat /\
        Z.of_nat (length result) <= limit) \/
     (exists detail, k (inr docs) = Raise (HTTPException 500 detail))).
Proof.
  intros Hlimit.
  destruct (list_furniture_call py q category featured limit)
    as [filter_dict [k [Hcall [_ [_ [_ [_ Hk]]]]]]].
  exists filter_dict, k. split; [exact Hcall |]. rewrite Hk.
  destruct (list_after_call_outcome py q docs)
    as [[kept [-> [Hsub _]]] | [v ->]].
  - left. eexists. split; [reflexivity |]. rewrite length_map.
    apply sublist_length in Hsub. split; lia.
  - right. by eexists.
Qed.

Lemma list_length_le_limit_witness :
  let d1 : document := {[ "name" := VStr "Oak table" ]} in
  let d2 : document := {[ "name" := VStr "Sofa" ]} in
  exists filter_dict k,
    list_furniture example_py (Some "oak") None None 2 =
      Call (get_documents "furniture" filter_dict 2) k /\
    ((exists result,
        k (inr [d1; d2]) = Return result /\
        (length result <= 2)%nat /\ Z.of_nat (length result) <= 2) \/
     (exists detail, k (inr [d1; d2]) = Raise (HTTPException 500 detail))).
Proof.
  intros d1 d2.
  exact (list_length_le_limit example_py (Some "oak") None None 2 [d1; d2]
           ltac:(simpl; lia)).
Defined.

(** C7, as stated, fails: a document whose [_id] is not an [ObjectId] (here
    a string) is returned as the store gave it, with its [_id] key and
    without an [id] key. *)
Lemma list_id_counterexample :
  let d : document := {[ "_id" := VStr "sofa-1"; "name" := VStr "Sofa" ]} in
  exists k,
    list_furniture example_py None None None 50 =
      Call (get_documents "furniture" ∅ 50) k /\
    k (inr [d]) = Return [d] /\
    d !! "_id" = Some (VStr "sofa-1") /\
    d !! "id" = None.
Proof. eexists. repeat split. Qed.

(** C7, amended: the handler returns or ends in status 500; every document
    it returns is a document of the store's answer after the conversion, and
    the conversion renames an [_id] that is an [ObjectId] to [id], holding
    the identifier as a string, removes the [_id] key and keeps every other
    field; a document whose [_id] is missing or is not an [ObjectId] is
    returned unchanged. *)
Theorem list_converts_ObjectId (py : PyLib) (q category : option string)
    (featured : option bool) (limit : Z) (docs : list document) :
  exists filter_dict k,
    list_furniture py q category featured limit =
      Call (get_documents "furniture" filter_dict limit) k /\
    ((exists result, k (inr docs) = Return result) \/
     (exists detail, k (inr docs) = Raise (HTTPException 500 detail))) /\
    (forall result d',
       k (inr docs) = Return result -> d' ∈ result ->
       exists d,
         d ∈ docs /\
         (forall o,
            d !! "_id" = Some (VObjectId o) ->
            d' !! "id" = Some (VStr (ObjectId_str py o)) /\
            d' !! "_id" = None /\
            (forall key, key <> "_id" -> key <> "id" -> d' !! key = d !! key)) /\
         ((forall o, d !! "_id" <> Some (VObjectId o)) -> d' = d)).
Proof.
  destruct (list_furniture_call py q category featured limit)
    as [filter_dict [k [Hcall [_ [_ [_ [_ Hk]]]]]]].
  exists filter_dict, k. split; [exact Hcall |]. rewrite Hk.
  destruct (list_after_call_outcome py q docs)
    as [[kept [-> [Hsub _]]] | [v ->]].
  - split; [left; by eexists |].
    intros result d' Hret Hin. injection Hret as <-.
    apply list_elem_of_fmap in Hin as [d [-> Hd]].
    exists d. split; [by eapply elem_of_sublist |]. split.
    + intros o Ho. destruct (convert_id_ObjectId py d o Ho) as [H1 H2].
      repeat split; [done | done |].
      intros key Hk1 Hk2. by apply convert_id_lookup_other.
    + apply convert_id_other.
  - split; [right; by eexists |]. intros result d' Hret. discriminate.
Qed.

Lemma list_converts_ObjectId_witness :
  let d : document := {[ "_id" := VObjectId 255%N; "name" := VStr "Sofa" ]} in
  exists filter_dict k,
    list_furniture example_py None None None 50 =
      Call (get_documents "furniture" filter_dict 50) k /\
    forall result d',
      k (inr [d]) = Return result -> d' ∈ result ->
      d' !! "id" = Some (VStr "0000000000000000000000ff") /\
      d' !! "_id" = None /\
      d' !! "name" = Some (VStr "Sofa").
Proof.
  intros d.
  destruct (list_converts_ObjectId example_py None None None 50 [d])
    as [filter_dict [k [Hcall [_ Hconv]]]].
  exists filter_dict, k. split; [exact Hcall |].
  intros result d' Hret Hin.
  destruct (Hconv result d' Hret Hin) as [d0 [Hd0 [Hoid _]]].
  apply list_elem_of_singleton in Hd0 as ->.
  destruct (Hoid 255%N eq_refl) as [Hid [Hno Hkeep]].
  split; [exact Hid |]. split; [exact Hno |].
  rewrite Hkeep by discriminate. reflexivity.
Defined.

(** C10: an empty [category] parameter is treated as an absent one.  The
    handler is the same program as without the parameter; the filter it
    sends to the store has no [category] key, so a document of any category
    matches it; and the handler returns the documents the store answers
    with, each with the category it has: all of them when [q] is absent or
    empty, and with a non-empty [q] those whose search text contains the
    lowered [q]. *)
Theorem list_empty_category (py : PyLib) (q : option string)
    (featured : option bool) (limit : Z) (docs : list document) :
  list_furniture py q (Some EmptyString) featured limit =
    list_furniture py q None featured limit /\
  exists filter_dict k,
    list_furniture py q (Some EmptyString) featured limit =
      Call (get_documents "furniture" filter_dict limit) k /\
    filter_dict !! "category" = None /\
    (forall d : document,
       (forall f, featured = Some f -> d !! "is_featured" = Some (VBool f)) ->
       matches filter_dict d) /\
    (q = None \/ q = Some EmptyString ->
     k (inr docs) = Return (map (convert_id py) docs)) /\
    (forall q', q = Some q' -> q' <> EmptyString ->
       Forall text_fields_ok docs ->
       k (inr docs) =
         Return (map (convert_id py)
                   (filter (fun d => str_in (lower py q') (search_text py d))
                      docs))) /\
    (forall d, convert_id py d !! "category" = d !! "category").
Proof.
  split; [reflexivity |].
  destruct (list_furniture_call py q (Some EmptyString) featured limit)
    as [filter_dict [k [Hcall [Hcat [Hfeat [Hother [_ Hk]]]]]]].
  simpl in Hcat.
  exists filter_dict, k. split; [exact Hcall |]. split; [exact Hcat |].
  split; [| split; [| split]].
  - intros d Hd key v Hkey.
    destruct (String.eqb_spec key "category") as [-> | Hk1]; [congruence |].
    destruct (String.eqb_spec key "is_featured") as [-> | Hk2].
    + rewrite Hfeat in Hkey. destruct featured as [f|]; [| discriminate].
      injection Hkey as <-. by apply Hd.
    + rewrite (Hother key Hk1 Hk2) in Hkey. discriminate.
  - intros Hq. rewrite Hk. by destruct Hq as [-> | ->].
  - intros q' -> Hq' Hok. rewrite Hk. unfold list_after_call.
    destruct (String.eqb_spec q' EmptyString) as [-> | _]; [done |].
    by rewrite (docs_with_q_text py (lower py q') docs Hok).
  - intros d. by apply convert_id_lookup_other.
Qed.

Lemma list_empty_category_witness :
  let chair : document :=
    {[ "name" := VStr "stool"; "category" := VStr "chairs" ]} in
  let table : document :=
    {[ "name" := VStr "desk"; "category" := VStr "tables" ]} in
  exists filter_dict k,
    list_furniture example_py None (Some EmptyString) None 50 =
      Call (get_documents "furniture" filter_dict 50) k /\
    matches filter_dict chair /\ matches filter_dict table /\
    k (inr [chair; table]) = Return [chair; table].
Proof.
  intros chair table.
  destruct (proj2 (list_empty_category example_py None None 50 [chair; table]))
    as [filter_dict [k [Hcall [_ [Hmatch [Hall _]]]]]].
  exists filter_dict, k. split; [exact Hcall |].
  split; [apply Hmatch; intros f Hf; discriminate |].
  split; [apply Hmatch; intros f Hf; discriminate |].
  rewrite Hall by (by left). reflexivity.
Defined.

(** ** Creation *)






(** ** Failures of the handlers *)

(** Whatever the body of the [try] block does, the [except] clause lets
    only status 500 out. *)
Lemma run_try_except_500 {S A : Type} (py : PyLib)
    (exec : forall X, store_call X -> S -> (exn + X) * S)
    (m : handler A) (s : S) :
  result_or_500 (run exec (try_except m (to_500 py)) s).1.
Proof.
  revert s. induction m as [a | e | X c k IH]; intros s; simpl.
  - exact I.
  - by eexists.
  - destruct (exec X c s) as [r s']. apply IH.
Qed.

(** X1: what leaves a handler function.  When its import statement
    succeeds, each of the four handlers, run against any store in any state,
    returns a result or raises an [HTTPException] of status 500: no other
    status (in particular no 404) and no other exception.  When the import
    statement fails, which happens before the [try] block, its exception
    leaves the handler as it is, not as a status 500. *)
Theorem handlers_fail_only_with_500 (py : PyLib)
    (imp : import_outcome unit) (imp_db : import_outcome (option Database))
    (now : datetime) (item : FurnitureCreate) (item_id : string)
    (payload : FurnitureUpdate) (q category : option string)
    (featured : option bool) (limit : Z)
    (S : Type) (exec : forall X, store_call X -> S -> (exn + X) * S) (s : S) :
  leaves_import_failure_or_500 exec s imp
    (create_furniture_request py imp item) /\
  leaves_import_failure_or_500 exec s imp
    (list_furniture_request py imp q category featured limit) /\
  leaves_import_failure_or_500 exec s imp_db
    (update_furniture_request py imp_db now item_id payload) /\
  leaves_import_failure_or_500 exec s imp_db
    (delete_furniture_request py imp_db item_id).
Proof.
  repeat split.
  - destruct imp as [f | m]; simpl; [reflexivity |].
    eexists. split; [reflexivity | apply run_try_except_500].
  - destruct imp as [f | m]; simpl; [reflexivity |].
    eexists. split; [reflexivity | apply run_try_except_500].
  - destruct imp_db as [f | db]; simpl; [reflexivity |].
    eexists. split; [reflexivity | apply run_try_except_500].
  - destruct imp_db as [f | db]; simpl; [reflexivity |].
    eexists. split; [reflexivity | apply run_try_except_500].
Qed.

(** X2: on every path, whatever the store answers, each handler makes at
    most one store call: nothing is retried and no second query follows. *)
Theorem handlers_call_store_at_most_once (py : PyLib) (db : option Database)
    (now : datetime) (item : FurnitureCreate) (item_id : string)
    (payload : FurnitureUpdate) (q category : option string)
    (featured : option bool) (limit : Z) :
  calls_at_most 1 (create_furniture py item) /\
  calls_at_most 1 (list_furniture py q category featured limit) /\
  calls_at_most 1 (update_furniture py db now item_id payload) /\
  calls_at_most 1 (delete_furniture py db item_id).
Proof.
  split; [| split; [| split]].
  - unfold create_furniture. simpl. intros [e | inserted_id]; exact I.
  - destruct (list_furniture_call py q category featured limit)
      as [filter_dict [k [-> [_ [_ [_ [Hraise Hk]]]]]]].
    simpl. intros [e | docs].
    + by rewrite Hraise.
    + rewrite Hk.
      by destruct (list_after_call_outcome py q docs)
        as [[kept [-> _]] | [v ->]].
  - destruct (decide (non_null_fields payload = ∅)) as [Hempty | Hne].
    { by rewrite (update_furniture_empty py db now item_id payload Hempty). }
    destruct db as [d|];
      [| by rewrite (update_furniture_no_call py None now item_id payload Hne
                       (or_introl eq_refl))].
    destruct (ObjectId_new py item_id) as [oid|] eqn:Hoid;
      [| by rewrite (update_furniture_no_call py (Some d) now item_id payload
                       Hne (or_intror Hoid))].
    destruct (update_furniture_call py d now item_id payload oid Hne Hoid)
      as [k [-> [Hraise Hk]]].
    simpl. intros [e | result].
    + by rewrite Hraise.
    + rewrite Hk. by destruct (Z.eqb (matched_count result) 0).
  - destruct db as [d|];
      [| by rewrite (delete_furniture_no_call py None item_id
                       (or_introl eq_refl))].
    destruct (ObjectId_new py item_id) as [oid|] eqn:Hoid;
      [| by rewrite (delete_furniture_no_call py (Some d) item_id
                       (or_intror Hoid))].
    destruct (delete_furniture_call py d item_id oid Hoid)
      as [k [-> [Hraise Hk]]].
    simpl. intros [e | result].
    + by rewrite Hraise.
    + rewrite Hk. by destruct (Z.eqb (deleted_count result) 0).
Qed.

(** X3: when the store raises [e] on the handler's call, the client receives
    status 500 whose detail is [str(e)]: for create and list always, for
    update when the payload has a non-null field, for update and delete when
    the database is configured and the identifier well formed. *)
Theorem store_failure_is_500 (py : PyLib) (db : Database) (now : datetime)
    (item : FurnitureCreate) (item_id : string) (payload : FurnitureUpdate)
    (oid : ObjectId) (q category : option string) (featured : option bool)
    (limit : Z) (e : exn) :
  (exists f v, (f, v) ∈ model_dump payload /\ v <> VNone) ->
  ObjectId_new py item_id = Some oid ->
  (run (failing_store e) (create_furniture py item) tt).1
    = inl (HTTPException 500 (exn_str py e)) /\
  (run (failing_store e) (list_furniture py q category featured limit) tt).1
    = inl (HTTPException 500 (exn_str py e)) /\
  (run (failing_store e)
     (update_furniture py (Some db) now item_id payload) tt).1
    = inl (HTTPException 500 (exn_str py e)) /\
  (run (failing_store e) (delete_furniture py (Some db) item_id) tt).1
    = inl (HTTPException 500 (exn_str py e)).
Proof.
  intros Hsome Hoid. apply some_non_null_field in Hsome.
  split; [reflexivity |]. split; [| split].
  - destruct (list_furniture_call py q category featured limit)
      as [filter_dict [k [-> [_ [_ [_ [Hraise _]]]]]]].
    simpl. by rewrite Hraise.
  - destruct (update_furniture_call py db now item_id payload oid Hsome Hoid)
      as [k [-> [Hraise _]]].
    simpl. by rewrite Hraise.
  - destruct (delete_furniture_call py db item_id oid Hoid)
      as [k [-> [Hraise _]]].
    simpl. by rewrite Hraise.
Qed.

Lemma store_failure_is_500_witness :
  (run (failing_store (StoreError "connection refused"))
     (update_furniture example_py (Some (Db "shop")) 7
        "0000000000000000000000ff" (price_payload (19999 # 100))) tt).1
  = inl (HTTPException 500 "connection refused").
Proof.
  assert (exists f v, (f, v) ∈ model_dump (price_payload (19999 # 100)) /\
                      v <> VNone) as Hsome.
  { exists "price", (VFloat (19999 # 100)). split; [| discriminate].
    unfold model_dump. simpl. do 5 apply list_elem_of_further.
    apply list_elem_of_here. }
  exact (proj1 (proj2 (proj2
    (store_failure_is_500 example_py (Db "shop") 7
       {| c_name := "Oak table"; c_description := None;
          c_category := "tables"; c_material := None; c_dimensions := None;
          c_price := 19999 # 100; c_stock := 0; c_image_url := None;
          c_is_featured := false |}
       "0000000000000000000000ff" (price_payload (19999 # 100)) 255%N
       None None None 50 (StoreError "connection refused") Hsome eq_refl)))).
Defined.

(** ** More on delete and update *)

(** X4: with a configured database and a well-formed identifier, the delete
    handler sends one [delete_one] on the collection [furniture] with the
    filter [{_id: ObjectId(item_id)}], and returns [{deleted: true}] whenever
    the store reports a non-zero [deleted_count]. *)
Theorem delete_removes_by_id (py : PyLib) (db : Database) (item_id : string)
    (oid : ObjectId) :
  ObjectId_new py item_id = Some oid ->
  exists k,
    delete_furniture py (Some db) item_id =
      Call (delete_one "furniture" {[ "_id" := VObjectId oid ]}) k /\
    forall result,
      deleted_count result <> 0 ->
      k (inr result) = Return {[ "deleted" := VBool true ]}.
Proof.
  intros Hoid.
  destruct (delete_furniture_call py db item_id oid Hoid) as [k [Hcall [_ Hk]]].
  exists k. split; [exact Hcall |]. intros result Hn. rewrite Hk.
  destruct (Z.eqb_spec (deleted_count result) 0); [done | reflexivity].
Qed.

Lemma delete_removes_by_id_witness :
  exists k,
    delete_furniture example_py (Some (Db "shop")) "0000000000000000000000ff" =
      Call (delete_one "furniture" {[ "_id" := VObjectId 255%N ]}) k /\
    k (inr {| deleted_count := 1 |}) = Return {[ "deleted" := VBool true ]}.
Proof.
  destruct (delete_removes_by_id example_py (Db "shop")
              "0000000000000000000000ff" 255%N eq_refl) as [k [Hcall Hk]].
  exists k. split; [exact Hcall |]. apply Hk. simpl. discriminate.
Defined.

(** X5: when no database is configured ([db] is [None]) the delete handler,
    and the update handler on a payload with a non-null field, end in status
    500 with the text of the failed subscript, make no store call, and do so
    whatever the identifier is: it is not parsed. *)
Theorem no_database_is_500 (py : PyLib) (now : datetime) (item_id : string)
    (payload : FurnitureUpdate) :
  delete_furniture py None item_id =
    Raise (HTTPException 500 (exn_str py TypeError)) /\
  ((exists f v, (f, v) ∈ model_dump payload /\ v <> VNone) ->
   update_furniture py None now item_id payload =
     Raise (HTTPException 500 (exn_str py TypeError))).
Proof.
  split.
  - apply (delete_furniture_no_call py None item_id). by left.
  - intros Hsome. apply some_non_null_field in Hsome.
    apply (update_furniture_no_call py None now item_id payload Hsome).
    by left.
Qed.

Lemma no_database_is_500_witness :
  update_furniture example_py None 7 "0000000000000000000000ff"
    (price_payload (19999 # 100)) =
    Raise (HTTPException 500 "'NoneType' object is not subscriptable").
Proof.
  apply (proj2 (no_database_is_500 example_py 7 "0000000000000000000000ff"
                  (price_payload (19999 # 100)))).
  exists "price", (VFloat (19999 # 100)). split; [| discriminate].
  unfold model_dump. simpl. do 5 apply list_elem_of_further.
  apply list_elem_of_here.
Defined.

(** ** More on listing *)

(** X6: when [q] is absent or empty the list handler returns every document
    of the store's answer, in the store's order, each after the identifier
    conversion; it does not look at names or descriptions, so it cannot fail
    on them. *)
Theorem list_without_q_returns_all (py : PyLib) (q category : option string)
    (featured : option bool) (limit : Z) (docs : list document) :
  q = None \/ q = Some EmptyString ->
  exists filter_dict k,
    list_furniture py q category featured limit =
      Call (get_documents "furniture" filter_dict limit) k /\
    k (inr docs) = Return (map (convert_id py) docs).
Proof.
  intros Hq.
  destruct (list_furniture_call py q category featured limit)
    as [filter_dict [k [Hcall [_ [_ [_ [_ Hk]]]]]]].
  exists filter_dict, k. split; [exact Hcall |]. rewrite Hk.
  by destruct Hq as [-> | ->].
Qed.

Lemma list_without_q_returns_all_witness :
  let d : document := {[ "_id" := VObjectId 255%N; "name" := VNone ]} in
  exists filter_dict k,
    list_furniture example_py None None None 50 =
      Call (get_documents "furniture" filter_dict 50) k /\
    k (inr [d]) =
      Return [ {[ "id" := VStr "0000000000000000000000ff"; "name" := VNone ]} ].
Proof.
  intros d.
  destruct (list_without_q_returns_all example_py None None None 50 [d]
              (or_introl eq_refl)) as [filter_dict [k [Hcall Hk]]].
  exists filter_dict, k. split; [exact Hcall |]. rewrite Hk. reflexivity.
Defined.

(** A document whose name is present and not a str makes the condition of
    the comprehension raise. *)
Lemma q_in_doc_bad_name (py : PyLib) (q_lower : string) (d : document)
    (v : value) :
  d !! "name" = Some v -> (forall s, v <> VStr s) ->
  q_in_doc py q_lower d = Raise (AttributeError v).
Proof.
  intros Hn Hv. unfold q_in_doc, dict_get. rewrite Hn. simpl.
  destruct v; try reflexivity. by destruct (Hv s).
Qed.

Lemma docs_with_q_bad_name (py : PyLib) (q_lower : string)
    (docs : list document) :
  (exists d v, d ∈ docs /\ d !! "name" = Some v /\ forall s, v <> VStr s) ->
  exists v', docs_with_q py q_lower docs = Raise (AttributeError v').
Proof.
  induction docs as [|d0 docs IH]; intros [d [v [Hin [Hn Hv]]]].
  - by apply elem_of_nil in Hin.
  - simpl. apply elem_of_cons in Hin as [<- | Hin].
    + rewrite (q_in_doc_bad_name py q_lower d v Hn Hv). by exists v.
    + destruct (q_in_doc_outcome py q_lower d0) as [[b ->] | [v' ->]];
        [| by exists v'].
      simpl. destruct IH as [v' ->]; [by exists d, v |]. by exists v'.
Qed.

(** X7: with a non-empty [q], one document in the store's answer whose name
    is present and not a str (a null name, a number) makes the whole request
    end in status 500, with the text of an [AttributeError]; no document is
    returned. *)
Theorem list_q_fails_on_non_str_name (py : PyLib) (q : string)
    (category : option string) (featured : option bool) (limit : Z)
    (docs : list document) :
  q <> EmptyString ->
  (exists d v, d ∈ docs /\ d !! "name" = Some v /\ forall s, v <> VStr s) ->
  exists filter_dict k,
    list_furniture py (Some q) category featured limit =
      Call (get_documents "furniture" filter_dict limit) k /\
    exists v',
      k (inr docs) = Raise (HTTPException 500 (exn_str py (AttributeError v'))).
Proof.
  intros Hq Hbad.
  destruct (list_furniture_call py (Some q) category featured limit)
    as [filter_dict [k [Hcall [_ [_ [_ [_ Hk]]]]]]].
  exists filter_dict, k. split; [exact Hcall |]. rewrite Hk.
  unfold list_after_call.
  destruct (String.eqb_spec q EmptyString) as [-> | _]; [done |].
  destruct (docs_with_q_bad_name py (lower py q) docs Hbad) as [v' ->].
  by exists v'.
Qed.

Lemma list_q_fails_on_non_str_name_witness :
  let d1 : document := {[ "name" := VStr "Oak table" ]} in
  let d2 : document := {[ "name" := VNone ]} in
  exists filter_dict k,
    list_furniture example_py (Some "oak") None None 50 =
      Call (get_documents "furniture" filter_dict 50) k /\
    exists v',
      k (inr [d1; d2]) =
        Raise (HTTPException 500 (example_exn_str (AttributeError v'))).
Proof.
  intros d1 d2.
  apply (list_q_fails_on_non_str_name example_py "oak" None None 50 [d1; d2]).
  - discriminate.
  - exists d2, VNone. split; [| split].
    + apply list_elem_of_further, list_elem_of_here.
    + reflexivity.
    + discriminate.
Defined.

(** Two requests that differ only in [q] send the same call to the store;
    [q] matters only for what is done with the answer. *)
Lemma list_furniture_same_call (py : PyLib) (q q' category : option string)
    (featured : option bool) (limit : Z) :
  exists filter_dict k k',
    list_furniture py q category featured limit =
      Call (get_documents "furniture" filter_dict limit) k /\
    list_furniture py q' category featured limit =
      Call (get_documents "furniture" filter_dict limit) k' /\
    (forall e, k (inl e) = k' (inl e)) /\
    (forall docs, k (inr docs) = list_after_call py q docs) /\
    (forall docs, k' (inr docs) = list_after_call py q' docs).
Proof.
  unfold list_furniture, list_after_call. simpl. eexists _, _, _.
  split; [reflexivity |]. split; [reflexivity |]. by repeat split.
Qed.

(** X8: the search does not see the case of [q] beyond what [lower] keeps:
    two non-empty search strings with the same lowered form give the same
    response against every store, in every state. *)
Theorem list_q_case_insensitive (py : PyLib) (q1 q2 : string)
    (category : option string) (featured : option bool) (limit : Z)
    (S : Type) (exec : forall X, store_call X -> S -> (exn + X) * S) (s : S) :
  q1 <> EmptyString -> q2 <> EmptyString ->
  lower py q1 = lower py q2 ->
  run exec (list_furniture py (Some q1) category featured limit) s =
  run exec (list_furniture py (Some q2) category featured limit) s.
Proof.
  intros H1 H2 Hlower.
  destruct (list_furniture_same_call py (Some q1) (Some q2) category featured
              limit) as [filter_dict [k [k' [-> [-> [Hraise [Hk Hk']]]]]]].
  simpl. destruct (exec _ _ s) as [[e | docs] s'].
  - by rewrite Hraise.
  - rewrite Hk, Hk'. unfold list_after_call.
    destruct (String.eqb_spec q1 EmptyString); [done |].
    destruct (String.eqb_spec q2 EmptyString); [done |].
    by rewrite Hlower.
Qed.

Lemma list_q_case_insensitive_witness :
  let d : document := {[ "name" := VStr "Oak table" ]} in
  let store :=
    scripted_store "unused" [d]
      {| matched_count := 0; modified_count := 0 |} {| deleted_count := 0 |} in
  run store (list_furniture example_py (Some "OAK") None None 50) [] =
  run store (list_furniture example_py (Some "oak") None None 50) [].
Proof.
  intros d store.
  apply (list_q_case_insensitive example_py "OAK" "oak" None None 50);
    [discriminate | discriminate | reflexivity].
Defined.

(** X9: no document the list handler returns has an [_id] that is an
    [ObjectId]: such an identifier is always replaced by the string field
    [id], whatever [q] and the filters are. *)
Theorem list_returns_no_ObjectId_id (py : PyLib) (q category : option string)
    (featured : option bool) (limit : Z) (docs : list document) :
  exists filter_dict k,
    list_furniture py q category featured limit =
      Call (get_documents "furniture" filter_dict limit) k /\
    forall result d' o,
      k (inr docs) = Return result -> d' ∈ result ->
      d' !! "_id" <> Some (VObjectId o).
Proof.
  destruct (list_furniture_call py q category featured limit)
    as [filter_dict [k [Hcall [_ [_ [_ [_ Hk]]]]]]].
  exists filter_dict, k. split; [exact Hcall |].
  intros result d' o Hret Hin. rewrite Hk in Hret.
  destruct (list_after_call_outcome py q docs)
    as [[kept [Hkept _]] | [v Hraise]]; [| congruence].
  rewrite Hkept in Hret. injection Hret as <-.
  apply list_elem_of_fmap in Hin as [d [-> _]].
  destruct (d !! "_id") as [[| | | | |o'|]|] eqn:Hid.
  6: { destruct (convert_id_ObjectId py d o' Hid) as [_ Hno].
       rewrite Hno. discriminate. }
  all: rewrite convert_id_other by (intros o''; rewrite Hid; discriminate);
    rewrite Hid; discriminate.
Qed.

Lemma list_returns_no_ObjectId_id_witness :
  let d : document := {[ "_id" := VObjectId 255%N; "name" := VStr "Sofa" ]} in
  exists filter_dict k,
    list_furniture example_py None None None 50 =
      Call (get_documents "furniture" filter_dict 50) k /\
    forall result d',
      k (inr [d]) = Return result -> d' ∈ result ->
      d' !! "_id" <> Some (VObjectId 255%N).
Proof.
  intros d.
  destruct (list_returns_no_ObjectId_id example_py None None None 50 [d])
    as [filter_dict [k [Hcall Hno]]].
  exists filter_dict, k. split; [exact Hcall |].
  intros result d' Hret Hin. exact (Hno result d' 255%N Hret Hin).
Defined.

(** ** More on validation *)

Lemma with_default_delete_null {A : Type} (validate : json -> option A)
    (body : gmap string json) (k k' : string) :
  body !! k = Some JNull ->
  with_default (validate_optional validate) None (delete k body) k' =
  with_default (validate_optional validate) None body k'.
Proof.
  intros Hnull. unfold with_default.
  destruct (decide (k = k')) as [<- | Hne].
  - by rewrite lookup_delete_eq, Hnull.
  - by rewrite lookup_delete_ne.
Qed.

(** X10: the update model does not tell an explicit [null] from an omitted
    field: removing a field whose value is [null] from the body changes
    neither whether the body validates nor the payload it validates to. *)
Theorem update_null_is_omitted (pd : Pydantic) (body : gmap string json)
    (k : string) :
  body !! k = Some JNull ->
  FurnitureUpdate_validate pd (delete k body) =
  FurnitureUpdate_validate pd body.
Proof.
  intros Hnull. unfold FurnitureUpdate_validate.
  by rewrite !(with_default_delete_null _ body k _ Hnull).
Qed.

Lemma update_null_is_omitted_witness :
  let body : gmap string json :=
    {[ "price" := JNumber (19999 # 100); "stock" := JNull ]} in
  FurnitureUpdate_validate example_pydantic body =
    Some (price_payload (19999 # 100)).
Proof.
  intros body.
  rewrite <- (update_null_is_omitted example_pydantic body "stock" eq_refl).
  reflexivity.
Defined.

Lemma with_default_absent_or_null {A : Type} (validate : json -> option A)
    (body : gmap string json) (k : string) :
  body !! k = None \/ body !! k = Some JNull ->
  with_default (validate_optional validate) None body k = Some None.
Proof. unfold with_default. by intros [-> | ->]. Qed.

(** X11: a PATCH body in which every field of the update model is absent or
    [null] (the empty object, for one) validates, and the update handler then
    returns [{updated: false}] without a store call, whatever the identifier
    and whether or not a database is configured. *)
Theorem patch_without_fields_is_no_op (pd : Pydantic) (py : PyLib)
    (db : option Database) (now : datetime) (item_id : string)
    (body : gmap string json) :
  (forall k, k ∈ update_fields ->
             body !! k = None \/ body !! k = Some JNull) ->
  exists payload,
    FurnitureUpdate_validate pd body = Some payload /\
    update_furniture py db now item_id payload =
      Return {[ "updated" := VBool false ]}.
Proof.
  intros Hall. exists empty_payload. split.
  - unfold FurnitureUpdate_validate.
    rewrite !with_default_absent_or_null;
      [reflexivity
      | apply Hall; unfold update_fields;
        repeat first [apply list_elem_of_here | apply list_elem_of_further] ..].
  - apply update_furniture_empty, non_null_fields_empty.
    repeat constructor.
Qed.

Lemma patch_without_fields_is_no_op_witness :
  exists payload,
    FurnitureUpdate_validate example_pydantic {[ "name" := JNull ]} =
      Some payload /\
    update_furniture example_py None 7 "not-an-id" payload =
      Return {[ "updated" := VBool false ]}.
Proof.
  apply (patch_without_fields_is_no_op example_pydantic example_py None 7
           "not-an-id" {[ "name" := JNull ]}).
  intros k Hk. unfold update_fields in Hk.
  repeat (apply elem_of_cons in Hk as [-> | Hk];
          [first [by left | by right] |]).
  by apply elem_of_nil in Hk.
Defined.

(** What [Optional[T]] makes of a supplied value. *)
Lemma validate_optional_Some {A : Type} (validate : json -> option A)
    (j : json) (o : option A) :
  validate_optional validate j = Some o ->
  (j = JNull /\ o = None) \/ (j <> JNull /\ exists a, validate j = Some a /\ o = Some a).
Proof.
  destruct j; simpl; intros H.
  1: { left. by injection H as <-. }
  all: right; split; [discriminate |];
    match type of H with
    | Some <$> ?v = _ => destruct v as [a|]; [| discriminate]
    end;
    injection H as <-; by exists a.
Qed.

(** A body that validates fixes every field of the item. *)
Lemma FurnitureCreate_validate_fields (pd : Pydantic) (body : gmap string json)
    (item : FurnitureCreate) :
  FurnitureCreate_validate pd body = Some item ->
  with_default (validate_optional (validate_str pd)) None body "description"
    = Some (c_description item) /\
  with_default (validate_optional (validate_str pd)) None body "material"
    = Some (c_material item) /\
  with_default (validate_optional (validate_str pd)) None body "dimensions"
    = Some (c_dimensions item) /\
  with_default (validate_int pd) 0 body "stock" = Some (c_stock item) /\
  with_default (validate_optional (validate_str pd)) None body "image_url"
    = Some (c_image_url item) /\
  with_default (validate_bool pd) false body "is_featured"
    = Some (c_is_featured item).
Proof.
  unfold FurnitureCreate_validate. intros H.
  destruct (required (validate_str pd) body "name") as [n|]; [| done].
  simpl in H.
  destruct (with_default _ _ body "description") as [d|]; [| done].
  simpl in H.
  destruct (required (validate_str pd) body "category") as [c|]; [| done].
  simpl in H.
  destruct (with_default _ _ body "material") as [m|]; [| done].
  simpl in H.
  destruct (with_default _ _ body "dimensions") as [dm|]; [| done].
  simpl in H.
  destruct (required (validate_float pd) body "price") as [p|]; [| done].
  simpl in H.
  destruct (with_default _ _ body "stock") as [s|]; [| done].
  simpl in H.
  destruct (with_default _ _ body "image_url") as [i|]; [| done].
  simpl in H.
  destruct (with_default _ _ body "is_featured") as [f|]; [| done].
  simpl in H. injection H as <-. done.
Qed.

(** X12: validation of a create body never invents or ignores a supplied
    field with a default.  If the body validates, a supplied [stock] or
    [is_featured] was accepted by its validator and its value is the item's
    (so a rejected one fails the whole body although the field is optional),
    and an omitted one is the default, 0 or false; a supplied [description]
    is [None] when it is [null] and otherwise the accepted string. *)
Theorem create_validation_of_defaults (pd : Pydantic)
    (body : gmap string json) (item : FurnitureCreate) :
  FurnitureCreate_validate pd body = Some item ->
  (forall j, body !! "stock" = Some j ->
             validate_int pd j = Some (c_stock item)) /\
  (body !! "stock" = None -> c_stock item = 0) /\
  (forall j, body !! "is_featured" = Some j ->
             validate_bool pd j = Some (c_is_featured item)) /\
  (body !! "is_featured" = None -> c_is_featured item = false) /\
  (forall j, body !! "description" = Some j ->
             (j = JNull /\ c_description item = None) \/
             (j <> JNull /\ exists s, validate_str pd j = Some s /\
                                     c_description item = Some s)) /\
  (body !! "description" = None -> c_description item = None).
Proof.
  intros Hv.
  destruct (FurnitureCreate_validate_fields pd body item Hv)
    as [Hd [_ [_ [Hs [_ Hf]]]]].
  unfold with_default in Hd, Hs, Hf. repeat split.
  - intros j Hj. by rewrite Hj in Hs.
  - intros Hj. rewrite Hj in Hs. by injection Hs.
  - intros j Hj. by rewrite Hj in Hf.
  - intros Hj. rewrite Hj in Hf. by injection Hf.
  - intros j Hj. rewrite Hj in Hd. by apply validate_optional_Some.
  - intros Hj. rewrite Hj in Hd. by injection Hd.
Qed.

Lemma create_validation_of_defaults_witness :
  let body : gmap string json :=
    {[ "name" := JString "Oak table"; "category" := JString "tables";
       "price" := JNumber (19999 # 100); "stock" := JNumber (3 # 1) ]} in
  exists item,
    FurnitureCreate_validate example_pydantic body = Some item /\
    c_stock item = 3 /\ c_is_featured item = false.
Proof.
  intros body.
  destruct (FurnitureCreate_validate example_pydantic body) as [item|] eqn:Hv;
    [| vm_compute in Hv; discriminate].
  destruct (create_validation_of_defaults example_pydantic body item Hv)
    as [Hs [_ [_ [Hf _]]]].
  exists item. split; [reflexivity |]. split.
  - specialize (Hs (JNumber (3 # 1)) eq_refl). simpl in Hs. by injection Hs.
  - by apply Hf.
Defined.

(** ** The diagnostics endpoint *)

(** X13: the two configuration fields of the diagnostics response report
    the environment variables only: each is "Set" exactly when its variable
    is set and not empty.  What the database branch stored in them
    ("Configured", the name of the database) is always overwritten, so the
    fields are the same whatever the import of [db] did, and never [None]. *)
Theorem diagnostics_configuration_fields (py : PyLib)
    (slice50 : string -> string) (imp imp' : db_import)
    (env_url env_name : option string) :
  let r := test_database py slice50 imp env_url env_name in
  let r' := test_database py slice50 imp' env_url env_name in
  database_url r = database_url r' /\
  database_name r = database_name r' /\
  (database_url r = Some "✅ Set" <->
   exists v, env_url = Some v /\ v <> EmptyString) /\
  (database_url r = Some "❌ Not Set" <->
   env_url = None \/ env_url = Some EmptyString) /\
  (database_name r = Some "✅ Set" <->
   exists v, env_name = Some v /\ v <> EmptyString) /\
  (database_name r = Some "❌ Not Set" <->
   env_name = None \/ env_name = Some EmptyString).
Proof.
  assert (forall env : option string,
            (Some (if env_truthy env then "✅ Set" else "❌ Not Set")
               = Some "✅ Set" <->
             exists v, env = Some v /\ v <> EmptyString) /\
            (Some (if env_truthy env then "✅ Set" else "❌ Not Set")
               = Some "❌ Not Set" <->
             env = None \/ env = Some EmptyString)) as Henv.
  { intros [v|]; simpl.
    - destruct (String.eqb_spec v EmptyString) as [-> | Hne]; simpl.
      + split; split.
        * discriminate.
        * intros [v [Hv Hne]]. congruence.
        * intros _. by right.
        * done.
      + split; split.
        * intros _. by exists v.
        * done.
        * discriminate.
        * intros [H | H]; congruence.
    - split; split.
      + discriminate.
      + intros [v [Hv _]]. discriminate.
      + intros _. by left.
      + done. }
  intros r r'. destruct (Henv env_url) as [Hu1 Hu2].
  destruct (Henv env_name) as [Hn1 Hn2].
  split; [reflexivity |]. split; [reflexivity |].
  split; [exact Hu1 |]. split; [exact Hu2 |]. split; [exact Hn1 | exact Hn2].
Qed.

(** X14: the diagnostics response lists at most ten collections, the first
    ones the store names, in the store's order, and all of them when there
    are at most ten; it lists none unless [db] was imported, is not [None]
    and [list_collection_names] returned. *)
Theorem diagnostics_collections (py : PyLib) (slice50 : string -> string)
    (imp : db_import) (env_url env_name : option string) :
  let r := test_database py slice50 imp env_url env_name in
  (length (collections r) <= 10)%nat /\
  (forall db names,
     imp = Imported (Some db) -> list_collection_names db = inr names ->
     collections r = take 10 names /\
     collections r `prefix_of` names /\
     ((length names <= 10)%nat -> collections r = names)) /\
  (collections r <> [] ->
   exists db names,
     imp = Imported (Some db) /\ list_collection_names db = inr names).
Proof.
  intros r. subst r. split; [| split].
  - destruct imp as [| e | [db|]]; simpl; try lia.
    destruct (list_collection_names db) as [e | names]; simpl; [lia |].
    rewrite length_take. lia.
  - intros db names -> Hnames. simpl. rewrite Hnames. simpl.
    split; [reflexivity |]. split.
    + apply prefix_take.
    + intros Hle. by apply take_ge.
  - destruct imp as [| e | [db|]]; simpl; try done.
    destruct (list_collection_names db) as [e | names] eqn:Hnames; simpl;
      [done |].
    intros _. by exists db, names.
Qed.

Lemma diagnostics_collections_witness :
  let names :=
    [ "a"; "b"; "c"; "d"; "e"; "f"; "g"; "h"; "i"; "j"; "k"; "l" ] in
  let db := {| db_name_attr := Some "shop";
               list_collection_names := inr names |} in
  collections (test_database example_py (fun s => s) (Imported (Some db))
                 None None)
  = [ "a"; "b"; "c"; "d"; "e"; "f"; "g"; "h"; "i"; "j" ].
Proof.
  intros names db.
  destruct (proj1 (proj2 (diagnostics_collections example_py (fun s => s)
                            (Imported (Some db)) None None))
              db names eq_refl eq_refl) as [Htake _].
  rewrite Htake. reflexivity.
Defined.

(** X15: the diagnostics response says "Connected" exactly when [db] was
    imported and is not [None], also when listing the collections then
    failed; it says "Connected & Working" exactly when the listing returned;
    and the backend is always reported as running. *)
Theorem diagnostics_connection_status (py : PyLib)
    (slice50 : string -> string) (imp : db_import)
    (env_url env_name : option string) :
  let r := test_database py slice50 imp env_url env_name in
  backend r = "✅ Running" /\
  (connection_status r = "Connected" <-> exists db, imp = Imported (Some db)) /\
  (connection_status r = "Not Connected" <->
   forall db, imp <> Imported (Some db)) /\
  (database r = "✅ Connected & Working" <->
   exists db names,
     imp = Imported (Some db) /\ list_collection_names db = inr names).
Proof.
  intros r. subst r.
  destruct imp as [| e | [db|]]; simpl.
  - split; [reflexivity |]. repeat split; try discriminate; try done.
    + intros [db H]. discriminate.
    + intros [db [names [H _]]]. discriminate.
  - split; [reflexivity |]. repeat split; try discriminate; try done.
    + intros [db H]. discriminate.
    + intros [db [names [H _]]]. discriminate.
  - destruct (list_collection_names db) as [e | names] eqn:Hnames; simpl.
    + split; [reflexivity |]. repeat split; try discriminate; try done.
      * intros _. by exists db.
      * intros H. by destruct (H db).
      * intros [db' [names [H Hn]]]. injection H as <-. congruence.
    + split; [reflexivity |]. repeat split; try discriminate; try done.
      * intros _. by exists db.
      * intros H. by destruct (H db).
      * intros _. by exists db, names.
  - split; [reflexivity |]. repeat split; try discriminate; try done.
    + intros [db H]. discriminate.
    + intros [db [names [H _]]]. discriminate.
Qed.

(** ** Descriptions that are not strings *)

Lemma q_in_doc_searchable (py : PyLib) (q_lower : string) (d : document) :
  text_fields_searchable d ->
  q_in_doc py q_lower d = Return (str_in q_lower (search_text py d)).
Proof.
  intros [Hn Hd]. unfold q_in_doc, search_text, doc_name, doc_description,
    dict_get, py_or.
  assert (exists n, default (VStr EmptyString) (d !! "name") = VStr n /\
                    match d !! "name" with
                    | Some (VStr s) => s
                    | _ => EmptyString
                    end = n) as [n [-> ->]].
  { destruct Hn as [-> | [n ->]]; by eexists. }
  simpl. destruct Hd as [-> | [v [-> [Hv | [ds ->]]]]]; simpl.
  - reflexivity.
  - rewrite Hv. simpl. destruct v; try reflexivity.
    simpl in Hv. apply negb_false_iff, String.eqb_eq in Hv. by subst.
  - by destruct ds.
Qed.

Lemma docs_with_q_searchable (py : PyLib) (q_lower : string)
    (docs : list document) :
  Forall text_fields_searchable docs ->
  docs_with_q py q_lower docs =
    Return (filter (fun d => str_in q_lower (search_text py d)) docs).
Proof.
  induction 1 as [|d docs Hd _ IH]; [reflexivity |].
  simpl. rewrite (q_in_doc_searchable py q_lower d Hd). simpl. rewrite IH.
  simpl. rewrite filter_cons.
  destruct (str_in q_lower (search_text py d)); simpl; reflexivity.
Qed.

Lemma q_in_doc_bad_description (py : PyLib) (q_lower : string) (d : document)
    (v : value) :
  d !! "description" = Some v -> truthy v = true -> (forall s, v <> VStr s) ->
  exists v', q_in_doc py q_lower d = Raise (AttributeError v').
Proof.
  intros Hd Ht Hv. unfold q_in_doc, dict_get, py_or. rewrite Hd. simpl.
  rewrite Ht.
  destruct (default (VStr EmptyString) (d !! "name")); simpl; eauto.
  destruct v; simpl; eauto. by destruct (Hv s0).
Qed.

Lemma docs_with_q_bad_description (py : PyLib) (q_lower : string)
    (docs : list document) :
  (exists d v, d ∈ docs /\ d !! "description" = Some v /\ truthy v = true /\
               forall s, v <> VStr s) ->
  exists v', docs_with_q py q_lower docs = Raise (AttributeError v').
Proof.
  induction docs as [|d0 docs IH]; intros [d [v [Hin [Hd [Ht Hv]]]]].
  - by apply elem_of_nil in Hin.
  - simpl. apply elem_of_cons in Hin as [<- | Hin].
    + destruct (q_in_doc_bad_description py q_lower d v Hd Ht Hv) as [v' ->].
      by exists v'.
    + destruct (q_in_doc_outcome py q_lower d0) as [[b ->] | [v' ->]];
        [| by exists v'].
      simpl. destruct IH as [v' ->]; [by exists d, v |]. by exists v'.
Qed.

(** X16: in a search, a description that [or] takes for false (null, the
    empty string, 0, false) counts as the empty string whatever its type,
    while one document with a description that is neither false nor a str
    makes the whole request end in status 500. *)
Theorem list_q_description_types (py : PyLib) (q : string)
    (category : option string) (featured : option bool) (limit : Z)
    (docs : list document) :
  q <> EmptyString ->
  exists filter_dict k,
    list_furniture py (Some q) category featured limit =
      Call (get_documents "furniture" filter_dict limit) k /\
    (Forall text_fields_searchable docs ->
     k (inr docs) =
       Return (map (convert_id py)
                 (filter (fun d => str_in (lower py q) (search_text py d))
                    docs))) /\
    ((exists d v, d ∈ docs /\ d !! "description" = Some v /\
                  truthy v = true /\ forall s, v <> VStr s) ->
     exists v',
       k (inr docs) =
         Raise (HTTPException 500 (exn_str py (AttributeError v')))).
Proof.
  intros Hq.
  destruct (list_furniture_call py (Some q) category featured limit)
    as [filter_dict [k [Hcall [_ [_ [_ [_ Hk]]]]]]].
  exists filter_dict, k. split; [exact Hcall |]. rewrite Hk.
  unfold list_after_call.
  destruct (String.eqb_spec q EmptyString) as [-> | _]; [done |]. split.
  - intros Hok. by rewrite (docs_with_q_searchable py (lower py q) docs Hok).
  - intros Hbad.
    destruct (docs_with_q_bad_description py (lower py q) docs Hbad)
      as [v' ->].
    by exists v'.
Qed.

Lemma list_q_description_types_witness :
  let d1 : document :=
    {[ "name" := VStr "Oak table"; "description" := VInt 0 ]} in
  let d2 : document :=
    {[ "name" := VStr "Oak sofa"; "description" := VInt 5 ]} in
  (exists filter_dict k,
     list_furniture example_py (Some "oak") None None 50 =
       Call (get_documents "furniture" filter_dict 50) k /\
     k (inr [d1]) = Return [d1]) /\
  (exists filter_dict k,
     list_furniture example_py (Some "oak") None None 50 =
       Call (get_documents "furniture" filter_dict 50) k /\
     exists v',
       k (inr [d1; d2]) =
         Raise (HTTPException 500 (example_exn_str (AttributeError v')))).
Proof.
  intros d1 d2. split.
  - destruct (list_q_description_types example_py "oak" None None 50 [d1]
                ltac:(discriminate)) as [filter_dict [k [Hcall [Hok _]]]].
    exists filter_dict, k. split; [exact Hcall |].
    rewrite Hok; [reflexivity |].
    apply Forall_cons; split; [| apply Forall_nil_2]. split.
    + right. by eexists.
    + right. exists (VInt 0). split; [reflexivity |]. by left.
  - destruct (list_q_description_types example_py "oak" None None 50 [d1; d2]
                ltac:(discriminate)) as [filter_dict [k [Hcall [_ Hbad]]]].
    exists filter_dict, k. split; [exact Hcall |]. apply Hbad.
    exists d2, (VInt 5). split; [| split; [reflexivity | split;
      [reflexivity | discriminate]]].
    apply list_elem_of_further, list_elem_of_here.
Defined.

(** ** What the responses of update and delete mean *)

(** X17: against any store, when the update handler returns at all it
    returns [{updated: false}] for a payload whose fields are all null, the
    store's state unchanged, and [{updated: true}] for any other payload: it
    never answers [{updated: false}] after a write was sent.  When the
    delete handler returns, it returns [{deleted: true}]. *)
Theorem update_delete_responses (py : PyLib) (db : option Database)
    (now : datetime) (item_id : string) (payload : FurnitureUpdate)
    (S : Type) (exec : forall X, store_call X -> S -> (exn + X) * S) (s : S) :
  (forall r s',
     run exec (update_furniture py db now item_id payload) s = (inr r, s') ->
     (Forall (fun kv => kv.2 = VNone) (model_dump payload) /\
      r = {[ "updated" := VBool false ]} /\ s' = s) \/
     ((exists f v, (f, v) ∈ model_dump payload /\ v <> VNone) /\
      r = {[ "updated" := VBool true ]})) /\
  (forall r s',
     run exec (delete_furniture py db item_id) s = (inr r, s') ->
     r = {[ "deleted" := VBool true ]}).
Proof.
  split.
  - intros r s' Hrun.
    destruct (decide (non_null_fields payload = ∅)) as [Hempty | Hne].
    { rewrite (update_furniture_empty py db now item_id payload Hempty) in Hrun.
      simpl in Hrun. injection Hrun as <- <-. left.
      split; [by apply non_null_fields_empty | done]. }
    right. split; [by apply some_non_null_field |].
    destruct db as [d|];
      [| rewrite (update_furniture_no_call py None now item_id payload Hne
                    (or_introl eq_refl)) in Hrun; discriminate].
    destruct (ObjectId_new py item_id) as [oid|] eqn:Hoid;
      [| rewrite (update_furniture_no_call py (Some d) now item_id payload Hne
                    (or_intror Hoid)) in Hrun; discriminate].
    destruct (update_furniture_call py d now item_id payload oid Hne Hoid)
      as [k [Hcall [Hraise Hk]]].
    rewrite Hcall in Hrun. simpl in Hrun.
    destruct (exec _ _ s) as [[e | result] s''].
    + rewrite Hraise in Hrun. discriminate.
    + rewrite Hk in Hrun.
      destruct (Z.eqb (matched_count result) 0); [discriminate |].
      simpl in Hrun. by injection Hrun as <- _.
  - intros r s' Hrun.
    destruct db as [d|];
      [| rewrite (delete_furniture_no_call py None item_id
                    (or_introl eq_refl)) in Hrun; discriminate].
    destruct (ObjectId_new py item_id) as [oid|] eqn:Hoid;
      [| rewrite (delete_furniture_no_call py (Some d) item_id
                    (or_intror Hoid)) in Hrun; discriminate].
    destruct (delete_furniture_call py d item_id oid Hoid)
      as [k [Hcall [Hraise Hk]]].
    rewrite Hcall in Hrun. simpl in Hrun.
    destruct (exec _ _ s) as [[e | result] s''].
    + rewrite Hraise in Hrun. discriminate.
    + rewrite Hk in Hrun.
      destruct (Z.eqb (deleted_count result) 0); [discriminate |].
      simpl in Hrun. by injection Hrun as <- _.
Qed.

Lemma update_delete_responses_witness :
  let store :=
    scripted_store "unused" []
      {| matched_count := 1; modified_count := 0 |} {| deleted_count := 1 |} in
  (run store
     (update_furniture example_py (Some (Db "shop")) 7
        "0000000000000000000000ff" (price_payload (19999 # 100))) []).1
  = inr {[ "updated" := VBool true ]}.
Proof.
  intros store.
  destruct (run store
              (update_furniture example_py (Some (Db "shop")) 7
                 "0000000000000000000000ff" (price_payload (19999 # 100))) [])
    as [[e | r] s'] eqn:Hrun; [vm_compute in Hrun; discriminate |].
  destruct (proj1 (update_delete_responses example_py (Some (Db "shop")) 7
                     "0000000000000000000000ff" (price_payload (19999 # 100))
                     (list logged_call) store []) r s' Hrun)
    as [[Hnull _] | [_ ->]]; [| reflexivity].
  apply Forall_forall with (x := ("price", VFloat (19999 # 100))) in Hnull;
    [discriminate |].
  unfold model_dump. simpl. do 5 apply list_elem_of_further.
  apply list_elem_of_here.
Defined.
